(** * golem/ethereum/node.py: the geth process supervisor [NodeProcess]

    A shallow embedding of [NodeProcess.__init__], [is_running], [start] and
    [stop].  The host (program lookup, subprocesses, file system, free ports,
    the child's TCP sockets) is an explicit record of oracles; the methods are
    written in a small state-and-exception monad in the order of the Python
    statements, and every external call leaves an event in a trace. *)

From Stdlib Require Import String Ascii List ZArith NArith Lia Bool.
From Stdlib Require Import DecimalString DecimalPos DecimalN DecimalZ.
Import ListNotations.
Open Scope string_scope.

(** ** Text helpers: the fragments of [re], [str] and [posixpath] the module uses *)

Module Text.

(** [\d] on a byte string: the ASCII digits. *)
Definition is_digit (c : ascii) : bool :=
  ((48 <=? N_of_ascii c) && (N_of_ascii c <=? 57))%N.

Definition digit_value (c : ascii) : N := (N_of_ascii c - 48)%N.

(** Greedy [\d*]: the longest run of digits and what follows it. *)
Fixpoint span_digits (s : string) : string * string :=
  match s with
  | String c r =>
      if is_digit c
      then let (d, rest) := span_digits r in (String c d, rest)
      else ("", s)
  | "" => ("", "")
  end.

(** Greedy [\d+].  What follows the run is not a digit, so a shorter run is
    never followed by a character the patterns below accept: the greedy
    choice is the only one and no backtracking is needed. *)
Definition digits1 (s : string) : option (string * string) :=
  match span_digits s with
  | ("", _) => None
  | (d, rest) => Some (d, rest)
  end.

(** A string of digits only, and a string that ends a run of digits. *)
Fixpoint all_digits (s : string) : bool :=
  match s with
  | "" => true
  | String c r => is_digit c && all_digits r
  end.

Definition stops_run (s : string) : Prop :=
  match s with
  | "" => True
  | String c _ => is_digit c = false
  end.

(** [int(s)] for a string of digits. *)
Definition int_of_digits (s : string) : N :=
  let fix go (acc : N) (s : string) : N :=
    match s with
    | String c r => go (acc * 10 + digit_value c)%N r
    | "" => acc
    end in
  go 0%N s.

(** [s.startswith(p)], returning the remainder. *)
Fixpoint strip_prefix (p s : string) : option string :=
  match p, s with
  | "", _ => Some s
  | String a p', String b s' => if Ascii.eqb a b then strip_prefix p' s' else None
  | String _ _, "" => None
  end.

(** [str(n)] for a Python int. *)
Definition str_N (n : N) : string := NilZero.string_of_uint (N.to_uint n).
Definition str_Z (z : Z) : string := NilZero.string_of_int (Z.to_int z).
Definition str_nat (n : nat) : string := str_N (N.of_nat n).

(** [sep.join(l)]. *)
Fixpoint join (sep : string) (l : list string) : string :=
  match l with
  | [] => ""
  | [x] => x
  | x :: r => x ++ sep ++ join sep r
  end.

Definition hex_digit (n : N) : ascii :=
  if (n <? 10)%N then ascii_of_N (48 + n) else ascii_of_N (87 + n).

(** [s.encode('hex')]: two lower-case hexadecimal digits per byte. *)
Fixpoint encode_hex (s : string) : string :=
  match s with
  | "" => ""
  | String c r =>
      let n := N_of_ascii c in
      String (hex_digit (n / 16)) (String (hex_digit (n mod 16)) (encode_hex r))
  end.

Definition ends_with_slash (s : string) : bool :=
  match String.get (String.length s - 1) s with
  | Some c => Ascii.eqb c "/"
  | None => false
  end.

(** [posixpath.join(a, b)]. *)
Definition path_join (a b : string) : string :=
  match b with
  | String "/" _ => b
  | _ => if (a =? "") || ends_with_slash a then a ++ b else a ++ "/" ++ b
  end.

(** ["{:32}".format(s)]: a string is left-aligned and padded with spaces. *)
Fixpoint spaces (n : nat) : string :=
  match n with O => "" | S k => String " " (spaces k) end.
Definition pad32 (s : string) : string := s ++ spaces (32 - String.length s).

End Text.

(** ** [distutils.version.StrictVersion] (Python 2) *)

Module Version.
Import Text.

Record StrictVersion := {
  version : N * N * N;
  prerelease : option (ascii * N)
}.

(** The optional group [(\. (\d+))?]. *)
Definition opt_patch (s : string) : option string * string :=
  match s with
  | String "." r =>
      match digits1 r with
      | Some (p, rest) => (Some p, rest)
      | None => (None, s)
      end
  | _ => (None, s)
  end.

(** The optional group [([ab](\d+))?]. *)
Definition opt_prerelease (s : string) : option (ascii * string) * string :=
  match s with
  | String c r =>
      if Ascii.eqb c "a" || Ascii.eqb c "b"
      then match digits1 r with
           | Some (n, rest) => (Some (c, n), rest)
           | None => (None, s)
           end
      else (None, s)
  | "" => (None, s)
  end.

(** [$] without MULTILINE: the end of the string, or just before a final
    newline. *)
Definition at_end (s : string) : bool :=
  match s with
  | "" => true
  | String c "" => Ascii.eqb c "010"
  | _ => false
  end.

(** [StrictVersion.parse] with
    [version_re = ^(\d+) \. (\d+) (\. (\d+))? ([ab](\d+))?$] (VERBOSE);
    [None] stands for [ValueError("invalid version number ...")]. *)
Definition parse (vstring : string) : option StrictVersion :=
  match digits1 vstring with
  | Some (major, String "." r1) =>
      match digits1 r1 with
      | Some (minor, r2) =>
          let (patch, r3) := opt_patch r2 in
          let (pre, r4) := opt_prerelease r3 in
          if at_end r4 then
            Some {| version :=
                      match patch with
                      | Some p => (int_of_digits major, int_of_digits minor, int_of_digits p)
                      | None => (int_of_digits major, int_of_digits minor, 0%N)
                      end;
                    prerelease :=
                      match pre with
                      | Some (c, n) => Some (c, int_of_digits n)
                      | None => None
                      end |}
          else None
      | None => None
      end
  | _ => None
  end.

(** [cmp] on the version tuples: lexicographic. *)
Definition cmp_tuple (a b : N * N * N) : comparison :=
  let '(a1, a2, a3) := a in
  let '(b1, b2, b3) := b in
  match (a1 ?= b1)%N with
  | Eq => match (a2 ?= b2)%N with
          | Eq => (a3 ?= b3)%N
          | c => c
          end
  | c => c
  end.

Definition cmp_prerelease (a b : ascii * N) : comparison :=
  match (N_of_ascii (fst a) ?= N_of_ascii (fst b))%N with
  | Eq => (snd a ?= snd b)%N
  | c => c
  end.

(** [StrictVersion.__cmp__] between two parsed versions. *)
Definition cmp (self other : StrictVersion) : comparison :=
  match cmp_tuple (version self) (version other) with
  | Eq =>
      match prerelease self, prerelease other with
      | None, None => Eq
      | Some _, None => Lt
      | None, Some _ => Gt
      | Some p, Some q => cmp_prerelease p q
      end
  | c => c
  end.

(** [StrictVersion.__cmp__] against a string: the string is parsed first. *)
Definition cmp_str (self : StrictVersion) (other : string) : option comparison :=
  match parse other with
  | Some o => Some (cmp self o)
  | None => None
  end.

(** [StrictVersion.__str__]. *)
Definition str (v : StrictVersion) : string :=
  let '(a, b, c) := version v in
  let vstring :=
    if (c =? 0)%N then join "." [str_N a; str_N b]
    else join "." [str_N a; str_N b; str_N c] in
  match prerelease v with
  | Some (ch, n) => vstring ++ String ch (str_N n)
  | None => vstring
  end.

(** The order of the data model: lexicographic on the triple. *)
Definition lt3 (a b : N * N * N) : Prop :=
  let '(a1, a2, a3) := a in
  let '(b1, b2, b3) := b in
  (a1 < b1 \/ (a1 = b1 /\ (a2 < b2 \/ (a2 = b2 /\ a3 < b3))))%N.

Definition le3 (a b : N * N * N) : Prop := lt3 a b \/ a = b.

End Version.

(** ** The host and the supervisor's state *)

Inductive file_kind := Directory | RegularFile.

(** The exceptions the module can meet. *)
Inductive exn :=
| OSError (msg : string)
| IOError (msg : string)
| AttributeError (msg : string)
| ValueError (msg : string)
| CalledProcessError (returncode : Z) (cmd : list string)
| NoSuchProcess (pid : nat)
| AccessDenied (pid : nat).

(** A [psutil.Popen] handle. *)
Record Popen := { pid : nat; cmdline : list string }.

(** What the supervisor does to the outside, in order. *)
Inductive event :=
| Communicate (args : list string)   (* subprocess.Popen(args, stdout=PIPE).communicate() *)
| Makedirs (dir : string)            (* os.makedirs *)
| Save (nodes : list string) (file : string)
| Check_call (args : list string)    (* subprocess.check_call *)
| Launch (ps : Popen)                (* psutil.Popen(args, close_fds=True) *)
| Atexit_register                    (* atexit.register(lambda: self.stop()) *)
| Sleep                              (* time.sleep(WAIT_PERIOD) *)
| Connections (pid : nat)            (* ps.connections('tcp') *)
| Terminate (pid : nat)
| Wait (pid : nat)
| Log_info (msg : string)
| Log_warn (msg : string)
| Log_started (wait_periods : nat) (cmd : string)  (* "Node started in {} s: `{}`" *)
| Log_terminated.                    (* "Node terminated in {:.2f} s" *)

(** The collaborators that are not part of this module, as oracles.
    [find_program] is golem.environments.utils.find_program and [free_port]
    the successive answers of golem.utils.find_free_net_port, which binds port
    0 and reports the port the operating system chose: never 0, hence
    [positive].  [privtopub] and [privtoaddr] are the key derivations of
    devp2p and pyethereum.  [terminate_gone] and [wait_gone] describe a host
    on which the two psutil calls of [stop] return or raise [NoSuchProcess]
    and nothing else; what psutil may answer in general is a [Psutil]. *)
Record Host := {
  find_program : string -> option string;
  stdout : list string -> string;        (* what a command prints, here [prog, 'version'] *)
  exit_status : list string -> Z;        (* return code of a check_call *)
  free_port : nat -> positive;
  laddr_ports : nat -> nat -> list Z;    (* pid, n-th listing: the laddr[1] of the child's TCP sockets *)
  terminate_gone : nat -> bool;          (* ps.terminate() raises NoSuchProcess *)
  wait_gone : nat -> bool;               (* ps.wait() raises NoSuchProcess *)
  privtopub : string -> string;
  privtoaddr : string -> string;
  module_dir : string                    (* path.dirname(__file__) *)
}.

(** What [ps.terminate()] and [ps.wait()] answer for the child with a given
    pid: the call returns ([None]) or raises the exception given, which may
    be [NoSuchProcess], [AccessDenied] or any other. *)
Record Psutil := {
  terminate_raises : nat -> option exn;
  wait_raises : nat -> option exn
}.

(** psutil on a host whose two calls raise nothing but [NoSuchProcess]. *)
Definition psutil_of (host : Host) : Psutil := {|
  terminate_raises := fun p => if terminate_gone host p then Some (NoSuchProcess p) else None;
  wait_raises := fun p => if wait_gone host p then Some (NoSuchProcess p) else None
|}.

(** The part of the outside that changes. *)
Record World := {
  fs : string -> option file_kind;
  allocated : nat;     (* answers of find_free_net_port already given *)
  listings : nat;      (* connection listings already taken *)
  spawned : nat;       (* children already launched *)
  trace : list event
}.

(** The attributes of a [NodeProcess] object; [None] is Python's [None]
    (for [pubkey]: the attribute does not exist yet). *)
Record NodeProcess := {
  port : option Z;
  __prog : string;
  datadir : string;
  __ps : option Popen;
  rpcport : option Z;
  pubkey : option string
}.

(** ** A state monad with exceptions *)

(** [Polling]: the fuel given to the readiness loop ran out while it was
    still looping. *)
Inductive outcome (A : Type) :=
| Ret (a : A)
| Raise (e : exn)
| Polling.
Arguments Ret {A} a.
Arguments Raise {A} e.
Arguments Polling {A}.

Definition M (S A : Type) : Type := S -> outcome A * S.

Definition ret {S A} (a : A) : M S A := fun s => (Ret a, s).
Definition raise {S A} (e : exn) : M S A := fun s => (Raise e, s).
Definition polling {S A} : M S A := fun s => (Polling, s).
Definition bind {S A B} (c : M S A) (k : A -> M S B) : M S B :=
  fun s =>
    match c s with
    | (Ret a, s') => k a s'
    | (Raise e, s') => (Raise e, s')
    | (Polling, s') => (Polling, s')
    end.

(** [try: c except <the exceptions h answers>: h e]. *)
Definition try_except {S A} (c : M S A) (h : exn -> option (M S A)) : M S A :=
  fun s =>
    match c s with
    | (Raise e, s') =>
        match h e with
        | Some handler => handler s'
        | None => (Raise e, s')
        end
    | r => r
    end.

Notation "x <- c1 ;; c2" := (bind c1 (fun x => c2))
  (at level 61, c1 at next level, right associativity).
Notation "c1 ;; c2" := (bind c1 (fun _ => c2))
  (at level 61, right associativity).

Definition with_fs (f : string -> option file_kind) (w : World) : World :=
  {| fs := f; allocated := allocated w; listings := listings w;
     spawned := spawned w; trace := trace w |}.
Definition with_allocated (n : nat) (w : World) : World :=
  {| fs := fs w; allocated := n; listings := listings w;
     spawned := spawned w; trace := trace w |}.
Definition with_listings (n : nat) (w : World) : World :=
  {| fs := fs w; allocated := allocated w; listings := n;
     spawned := spawned w; trace := trace w |}.
Definition with_spawned (n : nat) (w : World) : World :=
  {| fs := fs w; allocated := allocated w; listings := listings w;
     spawned := n; trace := trace w |}.
Definition with_trace (t : list event) (w : World) : World :=
  {| fs := fs w; allocated := allocated w; listings := listings w;
     spawned := spawned w; trace := t |}.

Definition set_port (p : option Z) (o : NodeProcess) : NodeProcess :=
  {| port := p; __prog := __prog o; datadir := datadir o; __ps := __ps o;
     rpcport := rpcport o; pubkey := pubkey o |}.
Definition set_ps (p : option Popen) (o : NodeProcess) : NodeProcess :=
  {| port := port o; __prog := __prog o; datadir := datadir o; __ps := p;
     rpcport := rpcport o; pubkey := pubkey o |}.
Definition set_rpcport (p : option Z) (o : NodeProcess) : NodeProcess :=
  {| port := port o; __prog := __prog o; datadir := datadir o; __ps := __ps o;
     rpcport := p; pubkey := pubkey o |}.
Definition set_pubkey (k : option string) (o : NodeProcess) : NodeProcess :=
  {| port := port o; __prog := __prog o; datadir := datadir o; __ps := __ps o;
     rpcport := rpcport o; pubkey := k |}.

(** Python truthiness of the values the module tests. *)
Definition truthy_int (p : option Z) : bool :=
  match p with Some z => negb (z =? 0)%Z | None => false end.
Definition truthy_str (s : option string) : bool :=
  match s with Some x => negb (x =? "") | None => false end.
Definition truthy_list {A} (l : list A) : bool :=
  match l with [] => false | _ => true end.
Definition truthy_obj {A} (o : option A) : bool :=
  match o with Some _ => true | None => false end.

(** The pattern of [re.search("Version: (\d+\.\d+\.\d+)", output)]. *)
Module VersionPattern.
Import Text.

(** [\d+\.\d+\.\d+] at the head of [s]: the text of the group. *)
Definition group1 (s : string) : option string :=
  match digits1 s with
  | Some (a, String "." r1) =>
      match digits1 r1 with
      | Some (b, String "." r2) =>
          match digits1 r2 with
          | Some (c, _) => Some (a ++ "." ++ b ++ "." ++ c)
          | None => None
          end
      | _ => None
      end
  | _ => None
  end.

Definition match_here (s : string) : option string :=
  match strip_prefix "Version: " s with
  | Some r => group1 r
  | None => None
  end.

(** [re.search]: the leftmost position where the pattern matches;
    [None] when there is none. *)
Fixpoint search (s : string) : option string :=
  match match_here s with
  | Some g => Some g
  | None =>
      match s with
      | String _ r => search r
      | "" => None
      end
  end.
End VersionPattern.

(** ** The class [NodeProcess] *)

Section NodeProcess.
Variable host : Host.
Import Text.

Definition MIN_GETH_VERSION : string := "1.4.5".
Definition MAX_GETH_VERSION : string := "1.5.999".
(** [WAIT_PERIOD = 0.01] seconds; [wait_time] is counted in such periods. *)
Definition WAIT_PERIOD_ms : nat := 10.

(** [Faucet.PRIVKEY] and [Faucet.ADDR]. *)
Definition PRIVKEY : string := pad32 "Golem Faucet".
Definition ADDR : string := privtoaddr host PRIVKEY.

(** *** Primitive actions on the world

    The calls the code does not guard are taken to succeed: running the
    located binary, [os.makedirs] on a path that does not exist, [save],
    [psutil.Popen] on the located binary and the listing of the child's
    connections.  [time.clock] only reads a clock and is left out. *)

Definition emit (e : event) : M World unit :=
  fun w => (Ret tt, with_trace (trace w ++ [e]) w).

Definition communicate (args : list string) : M World string :=
  emit (Communicate args) ;;
  ret (stdout host args).

Definition path_exists (p : string) : M World bool :=
  fun w => (Ret (truthy_obj (fs w p)), w).

Definition path_isdir (p : string) : M World bool :=
  fun w => (Ret (match fs w p with Some Directory => true | _ => false end), w).

Definition write_fs (p : string) (k : file_kind) : M World unit :=
  fun w => (Ret tt, with_fs (fun q => if q =? p then Some k else fs w q) w).

(** [os.makedirs] where it succeeds: the path becomes a directory (the
    parents it creates on the way are not recorded).  Its failure, an
    [OSError] of the operating system that may leave parents behind, is not
    modelled; what is proved of [__init__] below is stated for the runs in
    which the call returned, or speaks of the call alone. *)
Definition makedirs (p : string) : M World unit :=
  emit (Makedirs p) ;; write_fs p Directory.

Definition save (nodes : list string) (file : string) : M World unit :=
  emit (Save nodes file) ;; write_fs file RegularFile.

Definition check_call (args : list string) : M World unit :=
  emit (Check_call args) ;;
  if (exit_status host args =? 0)%Z then ret tt
  else raise (CalledProcessError (exit_status host args) args).

Definition find_free_net_port : M World Z :=
  fun w => (Ret (Z.pos (free_port host (allocated w))),
            with_allocated (S (allocated w)) w).

Definition psutil_Popen (args : list string) : M World Popen :=
  fun w =>
    let ps := {| pid := spawned w; cmdline := args |} in
    (Ret ps, with_trace (trace w ++ [Launch ps]) (with_spawned (S (spawned w)) w)).

Definition connections (ps : Popen) : M World (list Z) :=
  fun w =>
    (Ret (laddr_ports host (pid ps) (listings w)),
     with_trace (trace w ++ [Connections (pid ps)]) (with_listings (S (listings w)) w)).

Definition terminate (psutil : Psutil) (ps : Popen) : M World unit :=
  emit (Terminate (pid ps)) ;;
  match terminate_raises psutil (pid ps) with
  | Some e => raise e
  | None => ret tt
  end.

Definition wait (psutil : Psutil) (ps : Popen) : M World unit :=
  emit (Wait (pid ps)) ;;
  match wait_raises psutil (pid ps) with
  | Some e => raise e
  | None => ret tt
  end.

(** [a < b] and [a > b] of a [StrictVersion] against a string. *)
Definition version_lt (v : Version.StrictVersion) (s : string) : M World bool :=
  match Version.cmp_str v s with
  | Some c => ret (match c with Lt => true | _ => false end)
  | None => raise (ValueError ("invalid version number '" ++ s ++ "'"))
  end.

Definition version_gt (v : Version.StrictVersion) (s : string) : M World bool :=
  match Version.cmp_str v s with
  | Some c => ret (match c with Gt => true | _ => false end)
  | None => raise (ValueError ("invalid version number '" ++ s ++ "'"))
  end.

(** *** [NodeProcess.__init__(self, nodes, datadir)]

    The object under construction is returned at the end: when an
    exception leaves [__init__] no object exists. *)
Definition __init__ (nodes : list string) (datadir : string) : M World NodeProcess :=
  match find_program host "geth" with
  | None => raise (OSError "Ethereum client 'geth' not found")
  | Some "" => raise (OSError "Ethereum client 'geth' not found")
  | Some prog =>
      output <- communicate [prog; "version"] ;;
      match VersionPattern.search output with
      | None => raise (AttributeError "'NoneType' object has no attribute 'group'")
      | Some g =>
          match Version.parse g with
          | None => raise (ValueError ("invalid version number '" ++ g ++ "'"))
          | Some ver =>
              below <- version_lt ver MIN_GETH_VERSION ;;
              above <- (if below then ret true else version_gt ver MAX_GETH_VERSION) ;;
              if above then
                raise (OSError ("Incompatible Ethereum client 'geth' version: "
                                ++ Version.str ver))
              else
                emit (Log_info ("geth version " ++ Version.str ver)) ;;
                present <- path_exists datadir ;;
                (if present then ret tt else makedirs datadir) ;;
                isdir <- path_isdir datadir ;;
                if negb isdir then
                  raise (IOError (datadir ++ " does not exist or is not a dir"))
                else
                  (if truthy_list nodes
                   then save nodes (path_join datadir "static-nodes.json")
                   else ret tt) ;;
                  let genesis_file := path_join (module_dir host) "genesis_golem.json" in
                  let init_args := [prog; "--datadir"; datadir; "init"; genesis_file] in
                  check_call init_args ;;
                  emit (Log_info ("geth init: " ++ join " " init_args)) ;;
                  ret {| port := None; __prog := prog; datadir := datadir;
                         __ps := None; rpcport := None; pubkey := None |}
          end
      end
  end.

(** *** Methods: the state is the object and the world *)

Definition St : Type := NodeProcess * World.

Definition self : M St NodeProcess := fun s => (Ret (fst s), s).
Definition assign (f : NodeProcess -> NodeProcess) : M St unit :=
  fun s => (Ret tt, (f (fst s), snd s)).
Definition world {A} (c : M World A) : M St A :=
  fun s => let (r, w) := c (snd s) in (r, (fst s, w)).

(** [NodeProcess.is_running]. *)
Definition is_running (o : NodeProcess) : bool := truthy_obj (__ps o).

(** The [while True] loop of [start]; [wait_time] counts the periods slept. *)
Fixpoint poll (fuel : nat) (wait_time : nat) : M St nat :=
  match fuel with
  | O => polling
  | S fuel' =>
      world (emit Sleep) ;;
      let wait_time := S wait_time in
      o <- self ;;
      if negb (truthy_int (rpcport o)) then ret wait_time
      else
        match __ps o, rpcport o with
        | Some ps, Some p =>
            ports <- world (connections ps) ;;
            if existsb (Z.eqb p) ports then ret wait_time
            else poll fuel' wait_time
        | _, _ => raise (AttributeError "'NoneType' object has no attribute 'connections'")
        end
  end.

(** [NodeProcess.start(self, rpc, mining=False, nodekey=None, port=None)]. *)
Definition start (fuel : nat) (rpc mining : bool) (nodekey : option string)
           (port : option Z) : M St unit :=
  o <- self ;;
  if truthy_obj (__ps o) then ret tt
  else
    port <- (match port with
             | Some p => if truthy_int port then ret p else world find_free_net_port
             | None => world find_free_net_port
             end) ;;
    assign (set_port (Some port)) ;;
    o <- self ;;
    let args := [ __prog o;
                  "--datadir"; datadir o;
                  "--networkid"; "9";
                  "--port"; str_Z port;
                  "--nodiscover";
                  "--ipcdisable";
                  "--gasprice"; "0";
                  "--verbosity"; "3" ] in
    args <- (if rpc then
               p <- world find_free_net_port ;;
               assign (set_rpcport (Some p)) ;;
               ret (args ++ ["--rpc"; "--rpcport"; str_Z p])%list
             else ret args) ;;
    args <- (match nodekey with
             | Some k =>
                 if truthy_str nodekey then
                   assign (set_pubkey (Some (privtopub host k))) ;;
                   ret (args ++ ["--nodekeyhex"; encode_hex k])%list
                 else ret args
             | None => ret args
             end) ;;
    args <- (if mining then
               let mining_script :=
                 path_join (module_dir host) "mine_pending_transactions.js" in
               ret (args ++ ["--etherbase"; encode_hex ADDR; "js"; mining_script])%list
             else ret args) ;;
    ps <- world (psutil_Popen args) ;;
    assign (set_ps (Some ps)) ;;
    world (emit Atexit_register) ;;
    wait_time <- poll fuel 0 ;;
    world (emit (Log_started wait_time (join " " args))).

(** [NodeProcess.stop(self)], whatever psutil answers: the handler is for
    [psutil.NoSuchProcess] alone, any other exception leaves the method
    before the two assignments. *)
Definition stop_under (psutil : Psutil) : M St unit :=
  o <- self ;;
  match __ps o with
  | Some ps =>
      try_except
        (world (terminate psutil ps) ;; world (wait psutil ps))
        (fun e =>
           match e with
           | NoSuchProcess _ =>
               Some (world (emit (Log_warn ("Cannot terminate node: process "
                                            ++ str_nat (pid ps) ++ " no longer exists"))))
           | _ => None
           end) ;;
      assign (set_ps None) ;;
      assign (set_rpcport None) ;;
      world (emit Log_terminated)
  | None => ret tt
  end.

(** [stop] on a host whose psutil raises nothing but [NoSuchProcess]. *)
Definition stop : M St unit := stop_under (psutil_of host).

End NodeProcess.

Arguments emit e w /.
Arguments ret {S A} a s /.
Arguments raise {S A} e s /.
Arguments polling {S A} s /.

(** The version a located binary reports: the pattern's group, parsed. *)
Definition reported_version (host : Host) (prog : string) : option Version.StrictVersion :=
  match VersionPattern.search (stdout host [prog; "version"]) with
  | Some g => Version.parse g
  | None => None
  end.

(** The test [ver < MIN_GETH_VERSION or ver > MAX_GETH_VERSION] on the
    version tuple of a release without pre-release tag. *)
Definition out_of_range (v : N * N * N) : bool :=
  match Version.cmp_tuple v (1, 4, 5)%N with
  | Lt => true
  | _ => match Version.cmp_tuple v (1, 5, 999)%N with
         | Gt => true
         | _ => false
         end
  end.

(** The command line of the genesis initialisation. *)
Definition init_args (host : Host) (prog datadir : string) : list string :=
  [prog; "--datadir"; datadir; "init";
   Text.path_join (module_dir host) "genesis_golem.json"].

(** How often a command was run through [check_call]. *)
Fixpoint count_check_call (args : list string) (t : list event) : nat :=
  match t with
  | [] => 0
  | Check_call a :: r =>
      (if list_eq_dec string_dec a args then 1 else 0) + count_check_call args r
  | _ :: r => count_check_call args r
  end.

(** The peer port and the RPC port a [start] that launches settles on. *)
Definition peer_port (host : Host) (port : option Z) (w : World) : Z :=
  match port with
  | Some p => if truthy_int port then p else Z.pos (free_port host (allocated w))
  | None => Z.pos (free_port host (allocated w))
  end.

Definition rpc_port (host : Host) (port : option Z) (w : World) : Z :=
  Z.pos (free_port host ((if truthy_int port then 0 else 1) + allocated w)).

(** The argument vector of the child, the object and the world as [start]
    has them when it enters the readiness loop (for a call that launches). *)
Definition launch_vector (host : Host) (rpc mining : bool) (nodekey : option string)
           (port : option Z) (o : NodeProcess) (w : World) : list string :=
  ([ __prog o; "--datadir"; datadir o; "--networkid"; "9";
     "--port"; Text.str_Z (peer_port host port w);
     "--nodiscover"; "--ipcdisable"; "--gasprice"; "0"; "--verbosity"; "3" ]
   ++ (if rpc then ["--rpc"; "--rpcport"; Text.str_Z (rpc_port host port w)] else [])
   ++ (match nodekey with
       | Some k => if truthy_str nodekey then ["--nodekeyhex"; Text.encode_hex k] else []
       | None => []
       end)
   ++ (if mining
       then ["--etherbase"; Text.encode_hex (ADDR host); "js";
             Text.path_join (module_dir host) "mine_pending_transactions.js"]
       else []))%list.

Definition launched_process (host : Host) (rpc mining : bool) (nodekey : option string)
           (port : option Z) (o : NodeProcess) (w : World) : Popen :=
  {| pid := spawned w; cmdline := launch_vector host rpc mining nodekey port o w |}.

Definition launched (host : Host) (rpc mining : bool) (nodekey : option string)
           (port : option Z) (o : NodeProcess) (w : World) : St :=
  ({| port := Some (peer_port host port w);
      __prog := __prog o;
      datadir := datadir o;
      __ps := Some (launched_process host rpc mining nodekey port o w);
      rpcport := if rpc then Some (rpc_port host port w) else rpcport o;
      pubkey := match nodekey with
                | Some k => if truthy_str nodekey then Some (privtopub host k) else pubkey o
                | None => pubkey o
                end |},
   {| fs := fs w;
      allocated := (if rpc then 1 else 0) + ((if truthy_int port then 0 else 1) + allocated w);
      listings := listings w;
      spawned := S (spawned w);
      trace := (trace w ++ [Launch (launched_process host rpc mining nodekey port o w)])
                 ++ [Atexit_register] |}).

(** The world after one round of the readiness loop that queried the
    child's connections, and after [k] such rounds. *)
Definition polled (ps : Popen) (w : World) : World :=
  {| fs := fs w; allocated := allocated w; listings := S (listings w);
     spawned := spawned w;
     trace := (trace w ++ [Sleep]) ++ [Connections (pid ps)] |}.


(** Whether the port is among the child's local TCP ports at the [j]-th
    listing from now. *)
Definition seen (host : Host) (ps : Popen) (p : Z) (w : World) (j : nat) : bool :=
  existsb (Z.eqb p) (laddr_ports host (pid ps) (j + listings w)).

(** The events of a [stop] that finds a process. *)
Definition stop_events (host : Host) (ps : Popen) : list event :=
  let warn := Log_warn ("Cannot terminate node: process "
                        ++ Text.str_nat (pid ps) ++ " no longer exists") in
  if terminate_gone host (pid ps) then [Terminate (pid ps); warn; Log_terminated]
  else if wait_gone host (pid ps) then [Terminate (pid ps); Wait (pid ps); warn; Log_terminated]
  else [Terminate (pid ps); Wait (pid ps); Log_terminated].

(** Whether the handler of [stop], [except psutil.NoSuchProcess], takes an
    exception. *)
Definition caught (e : exn) : bool :=
  match e with NoSuchProcess _ => true | _ => false end.

(** What leaves the [try] block of [stop]: the exception of [terminate], or,
    when it returned, that of [wait]. *)
Definition raised_in_stop (psutil : Psutil) (ps : Popen) : option exn :=
  match terminate_raises psutil (pid ps) with
  | Some e => Some e
  | None => wait_raises psutil (pid ps)
  end.

(** The calls [stop] makes on the process: [wait] only when [terminate]
    returned. *)
Definition asked (psutil : Psutil) (ps : Popen) : list event :=
  Terminate (pid ps) ::
  match terminate_raises psutil (pid ps) with
  | Some _ => []
  | None => [Wait (pid ps)]
  end.

(** The line [stop] logs for a process that no longer exists. *)
Definition gone_warning (ps : Popen) : event :=
  Log_warn ("Cannot terminate node: process "
            ++ Text.str_nat (pid ps) ++ " no longer exists").

(** A sequence of calls on one supervisor. *)
Inductive call :=
| Start (rpc mining : bool) (nodekey : option string) (port : option Z)
| Stop.

Definition run_call (host : Host) (fuel : nat) (c : call) : M St unit :=
  match c with
  | Start rpc mining nodekey port => start host fuel rpc mining nodekey port
  | Stop => stop host
  end.

Fixpoint run_calls (host : Host) (fuel : nat) (cs : list call) : M St unit :=
  match cs with
  | [] => ret tt
  | c :: r => run_call host fuel c ;; run_calls host fuel r
  end.

(** Whether RPC was requested for the current run, read off the calls made
    so far: a [Start] made while nothing runs begins a run with its [rpc]
    flag, a [Start] made during a run changes nothing, [Stop] ends the run.
    [None]: there is no current run. *)
Fixpoint rpc_requested_for_run (run : option bool) (cs : list call) : option bool :=
  match cs with
  | [] => run
  | Start rpc _ _ _ :: r =>
      rpc_requested_for_run (match run with Some b => Some b | None => Some rpc end) r
  | Stop :: r => rpc_requested_for_run None r
  end.


(** How often an event of a kind occurs in a trace. *)
Definition is_sleep (e : event) : bool := match e with Sleep => true | _ => false end.
Definition is_launch (e : event) : bool := match e with Launch _ => true | _ => false end.
Definition is_connections (e : event) : bool :=
  match e with Connections _ => true | _ => false end.
Definition count_events (f : event -> bool) (t : list event) : nat :=
  List.length (filter f t).

(** *** A sample host, for the examples *)

Module Sample.
Definition host (version_text : string) (status : Z) (ready_after : nat) : Host := {|
  find_program := fun name => if name =? "geth" then Some "/usr/bin/geth" else None;
  stdout := fun _ => version_text;
  exit_status := fun _ => status;
  free_port := fun n => (39999 + Pos.of_succ_nat n)%positive;
  laddr_ports := fun _ n => if Nat.leb ready_after n then [40000%Z; 40001%Z] else [];
  terminate_gone := fun p => Nat.eqb p 1;
  wait_gone := fun _ => false;
  privtopub := fun k => "pub:" ++ k;
  privtoaddr := fun k => "addr";
  module_dir := "/opt/golem/ethereum"
|}.

Definition no_geth : Host := {|
  find_program := fun _ => None;
  stdout := fun _ => "";
  exit_status := fun _ => 0%Z;
  free_port := fun n => (39999 + Pos.of_succ_nat n)%positive;
  laddr_ports := fun _ _ => [];
  terminate_gone := fun _ => false;
  wait_gone := fun _ => false;
  privtopub := fun k => k;
  privtoaddr := fun k => k;
  module_dir := ""
|}.

(** psutil refusing to signal the child: [terminate] raises
    [AccessDenied]. *)
Definition denied : Psutil := {|
  terminate_raises := fun p => Some (AccessDenied p);
  wait_raises := fun _ => None
|}.

(** psutil losing the child between the two calls: [wait] raises
    [NoSuchProcess]. *)
Definition lost : Psutil := {|
  terminate_raises := fun _ => None;
  wait_raises := fun p => Some (NoSuchProcess p)
|}.

Definition banner (v : string) : string :=
  "Geth" ++ String "010" ("Version: " ++ v ++ String "010" "Protocol Versions: [63 62]").

Definition world0 : World :=
  {| fs := fun _ => None; allocated := 0; listings := 0; spawned := 0; trace := [] |}.

Definition node0 : NodeProcess :=
  {| port := None; __prog := "/usr/bin/geth"; datadir := "/tmp/eth";
     __ps := None; rpcport := None; pubkey := None |}.
End Sample.

(** ** The rest of the module: [FullNode], [Faucet], [ropsten_faucet_donate] *)

(** More kinds of events, and calls, to count. *)
Definition is_atexit (e : event) : bool :=
  match e with Atexit_register => true | _ => false end.
Definition is_terminate (e : event) : bool :=
  match e with Terminate _ => true | _ => false end.
Definition is_makedirs (e : event) : bool :=
  match e with Makedirs _ => true | _ => false end.
Definition is_save (e : event) : bool :=
  match e with Save _ _ => true | _ => false end.
Definition is_check_call (e : event) : bool :=
  match e with Check_call _ => true | _ => false end.
Definition is_start (c : call) : bool :=
  match c with Start _ _ _ _ => true | Stop => false end.

(** The exceptions of the checks [__init__] makes itself, before it asks
    anything of the disk beyond the kind of the path: the binary is not
    found, its output has no version, the version is out of range, the path
    is there and is not a directory. *)
Definition raised_by_check (datadir : string) (e : exn) : Prop :=
  e = OSError "Ethereum client 'geth' not found"
  \/ e = AttributeError "'NoneType' object has no attribute 'group'"
  \/ (exists v, e = OSError ("Incompatible Ethereum client 'geth' version: " ++ v))
  \/ e = IOError (datadir ++ " does not exist or is not a dir").

(** An event kind the readiness loop and the final log line never produce. *)
Definition quiet (f : event -> bool) : Prop :=
  f Sleep = false /\ (forall p, f (Connections p) = false)
  /\ (forall n c, f (Log_started n c) = false).

(** A call that gives no node key: [stop], or a [start] whose key is [None]
    or empty. *)
Definition keyless (c : call) : bool :=
  match c with
  | Start _ _ nodekey _ => negb (truthy_str nodekey)
  | Stop => true
  end.

(** [int] on a string of digits, continued from the value read so far. *)
Fixpoint int_from (acc : N) (s : string) : N :=
  match s with
  | String c r => int_from (acc * 10 + Text.digit_value c)%N r
  | "" => acc
  end.

(** Calling a method on an object from outside: the object comes back with
    the result; an exception (or a loop still polling) leaves the caller
    without the result, the world keeps what was done. *)
Definition call_on {A} (m : M St A) (o : NodeProcess) : M World (A * NodeProcess) :=
  fun w =>
    match m (o, w) with
    | (Ret a, s) => (Ret (a, fst s), snd s)
    | (Raise e, s) => (Raise e, snd s)
    | (Polling, s) => (Polling, snd s)
    end.

(** *** [FullNode.__init__(self, datadir=None, run=True)]

    [get_local_datadir] is golem.core.simpleenv.get_local_datadir, taken as
    a function from the name of the subdirectory to its path. *)
Definition FullNode__init__ (host : Host) (get_local_datadir : string -> string)
           (fuel : nat) (datadir : option string) (run : bool) : M World NodeProcess :=
  let datadir :=
    match datadir with
    | Some d => if truthy_str datadir then d
                else Text.path_join (get_local_datadir "ethereum") "full_node"
    | None => Text.path_join (get_local_datadir "ethereum") "full_node"
    end in
  o <- __init__ host [] datadir ;;
  if run && negb (is_running o) then
    r <- call_on (start host fuel false true (Some PRIVKEY) (Some 30900%Z)) o ;;
    ret (snd r)
  else ret o.

(** *** The hexadecimal codec of Python 2 strings, decoding side *)

Module Hex.

(** The value of a hexadecimal digit, in either case. *)
Definition hex_value (c : ascii) : option N :=
  let n := N_of_ascii c in
  if ((48 <=? n) && (n <=? 57))%N then Some (n - 48)%N
  else if ((97 <=? n) && (n <=? 102))%N then Some (n - 87)%N
  else if ((65 <=? n) && (n <=? 70))%N then Some (n - 55)%N
  else None.

(** [s.decode('hex')]; [None] stands for the [TypeError] raised on a string
    of odd length or with a character that is not a hexadecimal digit. *)
Fixpoint decode_hex (s : string) : option string :=
  match s with
  | "" => Some ""
  | String _ "" => None
  | String a (String b r) =>
      match hex_value a, hex_value b, decode_hex r with
      | Some x, Some y, Some t => Some (String (ascii_of_N (16 * x + y)) t)
      | _, _, _ => None
      end
  end.

(** [s[2:]]. *)
Definition drop2 (s : string) : string :=
  match s with
  | String _ (String _ r) => r
  | _ => ""
  end.

Definition is_lower_hex (c : ascii) : bool :=
  let n := N_of_ascii c in
  (((48 <=? n) && (n <=? 57)) || ((97 <=? n) && (n <=? 102)))%N.

Fixpoint all_lower_hex (s : string) : bool :=
  match s with
  | "" => true
  | String c r => is_lower_hex c && all_lower_hex r
  end.

End Hex.

(** *** [class Faucet]

    [Transaction] of pyethereum is a record of the constructor's arguments
    and of the key it was signed with; the node is what its two methods
    answer.  The info line of [gimme_money], which formats a float, is left
    out. *)

Module Faucet.

Record Transaction := {
  nonce : Z;
  gasprice : Z;
  startgas : Z;
  to : string;
  value : Z;
  data : string;
  signed_with : option string
}.

Record EthNode := {
  get_transaction_count : string -> Z;
  send : Transaction -> string
}.

Definition sign (key : string) (tx : Transaction) : Transaction :=
  {| nonce := nonce tx; gasprice := gasprice tx; startgas := startgas tx;
     to := to tx; value := value tx; data := data tx; signed_with := Some key |}.

(** [Faucet.gimme_money(ethnode, addr, value)]: the transaction handed to
    [ethnode.send], and the value returned ([None]: the [TypeError] of
    [decode('hex')]). *)
Definition gimme_money (host : Host) (normalize_address : string -> string)
           (ethnode : EthNode) (addr : string) (value : Z)
  : Transaction * option string :=
  let nonce := get_transaction_count ethnode ("0x" ++ Text.encode_hex (ADDR host)) in
  let addr := normalize_address addr in
  let tx := {| nonce := nonce; gasprice := 1; startgas := 21000; to := addr;
               value := value; data := ""; signed_with := None |} in
  let tx := sign PRIVKEY tx in
  let h := send ethnode tx in
  (tx, Hex.decode_hex (Hex.drop2 h)).

(** [Faucet.deploy_contract(ethnode, init_code)]: the transaction sent and
    the value returned, [tx.creates], which pyethereum derives from the
    transaction. *)
Definition deploy_contract (host : Host) (creates : Transaction -> string)
           (ethnode : EthNode) (init_code : string) : Transaction * string :=
  let nonce := get_transaction_count ethnode (Text.encode_hex (ADDR host)) in
  let tx := {| nonce := nonce; gasprice := 0; startgas := 3141592; to := "";
               value := 0; data := init_code; signed_with := None |} in
  let tx := sign PRIVKEY tx in
  (tx, creates tx).

End Faucet.

(** *** [ropsten_faucet_donate(addr)]

    The answer of [requests.get] is its status code and its body.  A body
    that is a JSON object is the object as a lookup function; its values are
    what [json.loads] yields: [None], booleans, integers, floats, unicode
    strings, lists and dictionaries.  A body that is JSON of another kind
    cannot be subscripted with ['paydate'], and a body that is no JSON at all
    makes [json()] raise.  [normalize_address] and [requests.get] are taken
    to answer.  What depends on the platform or on the text of a number is a
    parameter: the range of [datetime.fromtimestamp], [int] of a string, the
    overflow of the true division by [denoms.ether], the text [str.format]
    gives for a float or a container.  The function returns a boolean or
    raises, and writes to the log. *)
Module Ropsten.

(** A float: plus or minus [mantissa * 2 ^ exponent], an infinity, or nan. *)
Inductive double :=
| Finite (negative : bool) (mantissa : N) (exponent : Z)
| Infinite (negative : bool)
| NaN.

(** A unicode string, by its code points. *)
Definition unicode : Type := list N.

#[local] Set Warnings "-register-all".
Inductive jvalue :=
| JNull
| JBool (b : bool)
| JInt (z : Z)
| JFloat (f : double)
| JStr (u : unicode)
| JList (l : list jvalue)
| JDict (d : list (unicode * jvalue)).

Inductive error :=
| KeyError (key : string)
| TypeError
| ValueError
| OverflowError
| UnicodeEncodeError.

(** What a conversion of a number raises. *)
Inductive failure := Type_error | Value_error | Overflow_error.

Definition raised (f : failure) : error :=
  match f with
  | Type_error => TypeError
  | Value_error => ValueError
  | Overflow_error => OverflowError
  end.

Inductive log :=
| Log_error (msg : string)
| Log_warning (msg : string)
| Log_paid (wei : Z) (paydate : jvalue).   (* "Ropsten Faucet: {:.6f} ETH on {}" *)

Record Response := {
  status_code : Z;
  json : option (string -> option jvalue);   (* the body, when it is a JSON object *)
  json_other : bool                          (* else: whether it is JSON at all *)
}.

Record Web := {
  normalize_address : string -> string;
  get : string -> Response;
  fromtimestamp_raises : jvalue -> option failure;  (* datetime.fromtimestamp of a number *)
  int_of_text : unicode -> option Z;                (* int(u'...') *)
  ether_overflows : Z -> bool;                      (* wei / denoms.ether raises *)
  repr : jvalue -> string                           (* str() of a float, a list, a dict *)
}.

Definition URL_TEMPLATE : string := "http://faucet.ropsten.be:3001/donate/".

(** The byte string of a unicode string that is all ASCII. *)
Fixpoint ascii_text (u : unicode) : option string :=
  match u with
  | [] => Some ""
  | c :: r =>
      if (c <? 128)%N then
        match ascii_text r with
        | Some t => Some (String (ascii_of_N c) t)
        | None => None
        end
      else None
  end.

(** ["... {}".format(v)] on a byte-string template: a unicode string is
    encoded as ASCII, which fails on any other character. *)
Definition format (web : Web) (v : jvalue) : error + string :=
  match v with
  | JNull => inr "None"
  | JBool true => inr "True"
  | JBool false => inr "False"
  | JInt z => inr (Text.str_Z z)
  | JStr u =>
      match ascii_text u with
      | Some t => inr t
      | None => inl UnicodeEncodeError
      end
  | other => inr (repr web other)
  end.

(** [v == 0]: numbers compare by value, and booleans are numbers. *)
Definition is_zero (v : jvalue) : bool :=
  match v with
  | JBool b => negb b
  | JInt z => (z =? 0)%Z
  | JFloat (Finite _ m _) => (m =? 0)%N
  | _ => false
  end.

Definition is_number (v : jvalue) : bool :=
  match v with
  | JBool _ | JInt _ | JFloat _ => true
  | _ => false
  end.

(** [datetime.fromtimestamp(v)], for what it raises. *)
Definition fromtimestamp (web : Web) (v : jvalue) : option error :=
  if is_number v then
    match fromtimestamp_raises web v with
    | Some f => Some (raised f)
    | None => None
    end
  else Some TypeError.

(** [int(v)]: a float is truncated towards zero. *)
Definition int (web : Web) (v : jvalue) : error + Z :=
  match v with
  | JBool b => inr (if b then 1 else 0)%Z
  | JInt z => inr z
  | JFloat (Finite negative m e) =>
      let a := (if 0 <=? e then Z.of_N m * 2 ^ e else Z.of_N m / 2 ^ (- e))%Z in
      inr (if negative then - a else a)%Z
  | JFloat (Infinite _) => inl OverflowError
  | JFloat NaN => inl ValueError
  | JStr u =>
      match int_of_text web u with
      | Some z => inr z
      | None => inl ValueError
      end
  | _ => inl TypeError
  end.

(** The request the function sends. *)
Definition request (web : Web) (addr : string) : string :=
  URL_TEMPLATE ++ Text.encode_hex (normalize_address web addr).

Definition ropsten_faucet_donate (web : Web) (addr : string)
  : (error + bool) * list log :=
  let response := get web (request web addr) in
  if negb (status_code response =? 200)%Z then
    (inr false,
     [Log_error ("Ropsten Faucet error code " ++ Text.str_Z (status_code response))])
  else
    match json response with
    | None => (inl (if json_other response then TypeError else ValueError), [])
    | Some response =>
        match response "paydate" with
        | None => (inl (KeyError "paydate"), [])
        | Some paydate =>
            if is_zero paydate then
              match response "message" with
              | None => (inl (KeyError "message"), [])
              | Some m =>
                  match format web m with
                  | inl e => (inl e, [])
                  | inr text => (inr false, [Log_warning ("Ropsten Faucet warning " ++ text)])
                  end
              end
            else
              match fromtimestamp web paydate with
              | Some e => (inl e, [])
              | None =>
                  match response "amount" with
                  | None => (inl (KeyError "amount"), [])
                  | Some amount =>
                      match int web amount with
                      | inl e => (inl e, [])
                      | inr wei =>
                          if ether_overflows web wei then (inl OverflowError, [])
                          else (inr true, [Log_paid wei paydate])
                      end
                  end
              end
        end
    end.

(** A faucet that pays, for the examples. *)
Definition paying (paydate : jvalue) (amount : jvalue) : Web := {|
  normalize_address := fun a => a;
  get := fun _ =>
    {| status_code := 200;
       json := Some (fun k => if k =? "paydate" then Some paydate
                              else if k =? "amount" then Some amount
                              else if k =? "message" then Some (JStr [79; 75]%N)
                              else None);
       json_other := false |};
  fromtimestamp_raises :=
    fun v => match v with
             | JInt z => if (z <? 10000000000000)%Z then None else Some Value_error
             | _ => None
             end;
  int_of_text := fun _ => None;
  ether_overflows := fun _ => false;
  repr := fun _ => ""
|}.

End Ropsten.

(** * Properties *)

(** Evaluation of straight-line monadic code in a hypothesis. *)
Ltac crunch_in H :=
  repeat (progress (cbv beta iota delta [truthy_obj truthy_list negb] in H;
                    cbn [fs trace allocated listings spawned
                         with_fs with_trace with_allocated with_listings with_spawned
                         fst snd] in H;
                    rewrite ?String.eqb_refl in H)).

(** ** Digit runs and the version pattern *)

Module TextFacts.
Import Text.

Lemma span_digits_sound s d r :
  span_digits s = (d, r) -> s = d ++ r /\ all_digits d = true /\ stops_run r.
Proof.
  revert d r; induction s as [|c s IH]; simpl; intros d r H.
  - inversion H; subst; simpl; auto.
  - destruct (is_digit c) eqn:Hc.
    + destruct (span_digits s) as [d' r'] eqn:Hs.
      inversion H; subst; clear H.
      destruct (IH d' r eq_refl) as (-> & Hd & Hr).
      simpl; rewrite Hc, Hd; auto.
    + inversion H; subst; simpl; auto.
Qed.

Lemma span_digits_app d r :
  all_digits d = true -> stops_run r -> span_digits (d ++ r) = (d, r).
Proof.
  induction d as [|c d IH]; simpl; intros Hd Hr.
  - destruct r as [|c r]; simpl in *; [reflexivity | now rewrite Hr].
  - apply andb_true_iff in Hd as [Hc Hd].
    now rewrite Hc, IH.
Qed.

Lemma digits1_sound s d r :
  digits1 s = Some (d, r) ->
  s = d ++ r /\ all_digits d = true /\ d <> "" /\ stops_run r.
Proof.
  unfold digits1; intros H.
  destruct (span_digits s) as [d' r'] eqn:Hs.
  apply span_digits_sound in Hs as (-> & Hd & Hr).
  destruct d'; [discriminate|].
  inversion H; subst; repeat split; auto; discriminate.
Qed.

Lemma digits1_app d r :
  all_digits d = true -> d <> "" -> stops_run r -> digits1 (d ++ r) = Some (d, r).
Proof.
  intros Hd Hne Hr; unfold digits1.
  rewrite span_digits_app by assumption.
  destruct d; [contradiction | reflexivity].
Qed.

Lemma app_empty_r (s : string) : s ++ "" = s.
Proof. induction s; simpl; congruence. Qed.

Lemma length_app (s t : string) :
  String.length (s ++ t) = String.length s + String.length t.
Proof. induction s; simpl; congruence. Qed.

(** [str] on integers is one-to-one: distinct ports print differently. *)
Lemma str_Z_inj a b : str_Z a = str_Z b -> a = b.
Proof.
  unfold str_Z; intros H.
  assert (Hnn : forall z, Z.to_int z <> Decimal.Pos Decimal.Nil /\
                          Z.to_int z <> Decimal.Neg Decimal.Nil).
  { intros [|p|p]; simpl; split; try discriminate;
      intros Heq; inversion Heq as [Hp];
      now apply DecimalPos.Unsigned.to_uint_nonnil in Hp. }
  assert (Hi : Some (Z.to_int a) = Some (Z.to_int b)).
  { rewrite <- (NilZero.isi (Z.to_int a)) by apply Hnn.
    rewrite <- (NilZero.isi (Z.to_int b)) by apply Hnn.
    now rewrite H. }
  inversion Hi as [Hab].
  now rewrite <- (DecimalZ.of_to a), <- (DecimalZ.of_to b), Hab.
Qed.

(** The static-nodes file is not the data directory itself. *)
Lemma static_nodes_not_dir a : a <> path_join a "static-nodes.json".
Proof.
  intros Heq.
  assert (Hlen : String.length a < String.length (path_join a "static-nodes.json")).
  { unfold path_join; cbv beta iota.
    destruct ((a =? "") || ends_with_slash a); rewrite !length_app; simpl; lia. }
  rewrite <- Heq in Hlen; lia.
Qed.

End TextFacts.

Module VersionFacts.
Import Text TextFacts Version VersionPattern.

(** The group of the pattern is three non-empty digit runs joined by dots. *)
Lemma group1_shape s g :
  group1 s = Some g ->
  exists a b c,
    g = a ++ "." ++ b ++ "." ++ c /\
    all_digits a = true /\ a <> "" /\
    all_digits b = true /\ b <> "" /\
    all_digits c = true /\ c <> "".
Proof.
  unfold group1; intros H.
  destruct (digits1 s) as [[a r]|] eqn:Ha; [|discriminate].
  destruct r as [|x r1]; [discriminate|].
  destruct (Ascii.eqb_spec x ".") as [->|Hx];
    [|destruct x as [[] [] [] [] [] [] [] []]; try discriminate; now elim Hx].
  destruct (digits1 r1) as [[b r]|] eqn:Hb; [|discriminate].
  destruct r as [|y r2]; [discriminate|].
  destruct (Ascii.eqb_spec y ".") as [->|Hy];
    [|destruct y as [[] [] [] [] [] [] [] []]; try discriminate; now elim Hy].
  destruct (digits1 r2) as [[c r]|] eqn:Hc; [|discriminate].
  inversion H; subst; clear H.
  apply digits1_sound in Ha as (_ & ? & ? & _).
  apply digits1_sound in Hb as (_ & ? & ? & _).
  apply digits1_sound in Hc as (_ & ? & ? & _).
  exists a, b, c; auto 10.
Qed.

Lemma search_shape s g :
  search s = Some g -> exists s', group1 s' = Some g.
Proof.
  induction s as [|c s IH]; simpl; intros H.
  - unfold match_here in H; simpl in H; discriminate.
  - destruct (match_here (String c s)) as [g'|] eqn:Hm.
    + inversion H; subst.
      unfold match_here in Hm.
      destruct (strip_prefix "Version: " (String c s)) as [r|]; [|discriminate].
      now exists r.
    + auto.
Qed.

(** [StrictVersion] on such a text: the three numbers, no pre-release tag. *)
Lemma parse_three a b c :
  all_digits a = true -> a <> "" ->
  all_digits b = true -> b <> "" ->
  all_digits c = true -> c <> "" ->
  parse (a ++ "." ++ b ++ "." ++ c) =
    Some {| version := (int_of_digits a, int_of_digits b, int_of_digits c);
            prerelease := None |}.
Proof.
  intros Ha Hna Hb Hnb Hc Hnc; unfold parse.
  rewrite (digits1_app a) by (auto; reflexivity).
  simpl append; cbv beta iota.
  rewrite (digits1_app b) by (auto; reflexivity).
  unfold opt_patch; cbv beta iota.
  rewrite <- (app_empty_r c) at 1.
  rewrite (digits1_app c "") by (auto; exact I).
  reflexivity.
Qed.

Lemma search_parse s g :
  search s = Some g ->
  exists v, parse g = Some {| version := v; prerelease := None |}.
Proof.
  intros H.
  apply search_shape in H as (s' & H).
  apply group1_shape in H as (a & b & c & -> & ? & ? & ? & ? & ? & ?).
  eexists; now apply parse_three.
Qed.

(** [cmp] on tuples against the lexicographic order. *)
Lemma cmp_tuple_Lt a b : cmp_tuple a b = Lt <-> lt3 a b.
Proof.
  destruct a as [[a1 a2] a3], b as [[b1 b2] b3]; unfold cmp_tuple, lt3.
  destruct (N.compare_spec a1 b1), (N.compare_spec a2 b2), (N.compare_spec a3 b3);
    split; intros Hc; try discriminate; try reflexivity; try lia.
Qed.

Lemma cmp_tuple_Gt a b : cmp_tuple a b = Gt <-> lt3 b a.
Proof.
  destruct a as [[a1 a2] a3], b as [[b1 b2] b3]; unfold cmp_tuple, lt3.
  destruct (N.compare_spec a1 b1), (N.compare_spec a2 b2), (N.compare_spec a3 b3);
    split; intros Hc; try discriminate; try reflexivity; try lia.
Qed.

Lemma cmp_tuple_Eq a b : cmp_tuple a b = Eq <-> a = b.
Proof.
  destruct a as [[a1 a2] a3], b as [[b1 b2] b3]; unfold cmp_tuple.
  destruct (N.compare_spec a1 b1), (N.compare_spec a2 b2), (N.compare_spec a3 b3);
    split; intros Hc; try discriminate; try reflexivity;
    try (inversion Hc; lia); subst; reflexivity.
Qed.

Lemma not_lt3_le3 a b : ~ lt3 a b <-> le3 b a.
Proof.
  unfold le3; rewrite <- cmp_tuple_Lt, <- (cmp_tuple_Lt b a), <- (cmp_tuple_Eq b a).
  destruct a as [[a1 a2] a3], b as [[b1 b2] b3]; unfold cmp_tuple.
  destruct (N.compare_spec a1 b1), (N.compare_spec a2 b2), (N.compare_spec a3 b3);
    destruct (N.compare_spec b1 a1), (N.compare_spec b2 a2), (N.compare_spec b3 a3);
    try lia; intuition congruence.
Qed.

End VersionFacts.

(** ** Construction: locating the binary and the version gate *)

Lemma parse_MIN :
  Version.parse MIN_GETH_VERSION =
    Some {| Version.version := (1, 4, 5)%N; Version.prerelease := None |}.
Proof. reflexivity. Qed.

Lemma parse_MAX :
  Version.parse MAX_GETH_VERSION =
    Some {| Version.version := (1, 5, 999)%N; Version.prerelease := None |}.
Proof. reflexivity. Qed.

Lemma reported_version_plain host prog ver :
  reported_version host prog = Some ver ->
  exists g, VersionPattern.search (stdout host [prog; "version"]) = Some g /\
            Version.parse g = Some ver /\ Version.prerelease ver = None.
Proof.
  unfold reported_version; intros H.
  destruct (VersionPattern.search _) as [g|] eqn:Hs; [|discriminate].
  exists g; repeat split; auto.
  apply VersionFacts.search_parse in Hs as (v & Hv).
  rewrite Hv in H; inversion H; reflexivity.
Qed.

Lemma gate_eval {A} ver (k : bool -> M World A) w :
  Version.prerelease ver = None ->
  (below <- version_lt ver MIN_GETH_VERSION ;;
   above <- (if below then ret true else version_gt ver MAX_GETH_VERSION) ;;
   k above) w = k (out_of_range (Version.version ver)) w.
Proof.
  intros Hpre.
  unfold bind, version_lt, version_gt, Version.cmp_str, out_of_range.
  rewrite parse_MIN, parse_MAX.
  unfold Version.cmp; rewrite Hpre; cbn [Version.version Version.prerelease].
  destruct (Version.cmp_tuple (Version.version ver) (1, 4, 5)%N); simpl;
    destruct (Version.cmp_tuple (Version.version ver) (1, 5, 999)%N); reflexivity.
Qed.

Lemma out_of_range_spec v :
  out_of_range v = false <-> Version.le3 (1, 4, 5)%N v /\ Version.le3 v (1, 5, 999)%N.
Proof.
  rewrite <- !VersionFacts.not_lt3_le3.
  rewrite <- VersionFacts.cmp_tuple_Lt, <- VersionFacts.cmp_tuple_Gt.
  unfold out_of_range.
  destruct (Version.cmp_tuple v (1, 4, 5)%N);
    destruct (Version.cmp_tuple v (1, 5, 999)%N);
    split; try discriminate; try reflexivity; try (intros _; split; discriminate);
    intros [H1 H2]; congruence.
Qed.

(** What [__init__] does for a located binary whose version parses, case
    by case: the outcome, the events it adds, the data directory. *)
Lemma init_outcome host nodes datadir prog ver w :
  find_program host "geth" = Some prog -> prog <> "" ->
  reported_version host prog = Some ver ->
  let r := __init__ host nodes datadir w in
  let queried := Communicate [prog; "version"] in
  let logged := [queried; Log_info ("geth version " ++ Version.str ver)] in
  let ia := init_args host prog datadir in
  if out_of_range (Version.version ver) then
    r = (Raise (OSError ("Incompatible Ethereum client 'geth' version: " ++ Version.str ver)),
         with_trace (trace w ++ [queried]) w)
  else
    match fs w datadir with
    | Some RegularFile =>
        r = (Raise (IOError (datadir ++ " does not exist or is not a dir")),
             with_trace (trace w ++ logged) w)
    | dir =>
        fst r = (if (exit_status host ia =? 0)%Z
                 then Ret {| port := None; __prog := prog; datadir := datadir;
                             __ps := None; rpcport := None; pubkey := None |}
                 else Raise (CalledProcessError (exit_status host ia) ia))
        /\ trace (snd r) =
             (trace w ++ logged
                ++ (if truthy_obj dir then [] else [Makedirs datadir])
                ++ (if truthy_list nodes
                    then [Save nodes (Text.path_join datadir "static-nodes.json")]
                    else [])
                ++ [Check_call ia]
                ++ (if (exit_status host ia =? 0)%Z
                    then [Log_info ("geth init: " ++ Text.join " " ia)]
                    else []))%list
        /\ fs (snd r) datadir = Some Directory
        /\ spawned (snd r) = spawned w
    end.
Proof.
  intros Hfind Hne Hrep.
  destruct (reported_version_plain _ _ _ Hrep) as (g & Hs & Hp & Hpre).
  cbv zeta.
  remember (__init__ host nodes datadir w) as r eqn:Hr.
  unfold __init__ in Hr; rewrite Hfind in Hr.
  destruct prog as [|c0 prog0]; [contradiction|].
  set (prog := String c0 prog0) in *.
  unfold bind at 1, communicate, bind at 1 in Hr; simpl emit in Hr; cbv beta iota in Hr.
  unfold ret at 1 in Hr; rewrite Hs, Hp in Hr.
  rewrite gate_eval in Hr by assumption.
  destruct (out_of_range (Version.version ver)); [exact Hr|].
  fold (init_args host prog datadir) in Hr.
  set (ia := init_args host prog datadir) in *.
  clearbody ia prog.
  unfold path_exists, path_isdir, makedirs, save, write_fs, check_call in Hr.
  unfold bind, emit, ret, raise in Hr.
  crunch_in Hr.
  destruct (fs w datadir) as [[|]|] eqn:Hfs; crunch_in Hr; rewrite ?Hfs in Hr; crunch_in Hr;
    try (subst r; rewrite <- !app_assoc; reflexivity);
    destruct nodes as [|n0 nodes0]; crunch_in Hr;
    destruct (exit_status host ia =? 0)%Z eqn:Hz; crunch_in Hr; subst r;
    cbn [fst snd fs trace spawned with_fs with_trace truthy_obj truthy_list];
    rewrite <- ?app_assoc; cbn [app]; rewrite ?String.eqb_refl, ?Hfs; repeat split; auto;
    (destruct (String.eqb_spec datadir (Text.path_join datadir "static-nodes.json")) as [E|_];
     [now apply TextFacts.static_nodes_not_dir in E | reflexivity]).
Qed.

(** C1.  For a located binary whose version output parses to the triple [v],
    construction gets past the version gate (the line "geth version ..." is
    logged right after the version query) if and only if
    1.4.5 <= v <= 1.5.999 in the lexicographic order, both bounds included;
    otherwise, and only then, it raises the OSError "Incompatible Ethereum
    client 'geth' version" having done nothing but the version query.  A
    binary reporting 1.5.0 is accepted (and construction succeeds when the
    data directory is usable and the genesis initialisation exits with 0);
    one reporting 1.6.0 is rejected. *)
Theorem version_gate_inclusive_range host nodes datadir prog ver w :
  find_program host "geth" = Some prog -> prog <> "" ->
  reported_version host prog = Some ver ->
  let v := Version.version ver in
  let r := __init__ host nodes datadir w in
  let queried := (trace w ++ [Communicate [prog; "version"]])%list in
  let accepted :=
    exists t, trace (snd r) =
              (queried ++ Log_info ("geth version " ++ Version.str ver) :: t)%list in
  let rejected :=
    r = (Raise (OSError ("Incompatible Ethereum client 'geth' version: "
                         ++ Version.str ver)),
         with_trace queried w) in
  (accepted <-> Version.le3 (1, 4, 5)%N v /\ Version.le3 v (1, 5, 999)%N)
  /\ (rejected <-> ~ (Version.le3 (1, 4, 5)%N v /\ Version.le3 v (1, 5, 999)%N))
  /\ (v = (1, 5, 0)%N ->
      accepted /\
      (fs w datadir <> Some RegularFile ->
       exit_status host (init_args host prog datadir) = 0%Z ->
       exists o, fst r = Ret o))
  /\ (v = (1, 6, 0)%N -> rejected).
Proof.
  intros Hfind Hne Hrep v r queried accepted rejected.
  pose proof (init_outcome host nodes datadir prog ver w Hfind Hne Hrep) as Hout.
  cbv zeta in Hout; fold r v in Hout.
  pose proof (out_of_range_spec v) as Hspec.
  assert (Hcases :
            (out_of_range v = true /\ rejected /\ ~ accepted) \/
            (out_of_range v = false /\ accepted /\ ~ rejected /\
             (fs w datadir <> Some RegularFile ->
              exit_status host (init_args host prog datadir) = 0%Z ->
              exists o, fst r = Ret o))).
  { destruct (out_of_range v) eqn:Hoor.
    - left; split; [reflexivity|]; split; [exact Hout|].
      intros [t Ht]; rewrite Hout in Ht; simpl in Ht.
      unfold queried in Ht.
      rewrite <- (app_nil_r (trace w ++ [Communicate [prog; "version"]])) in Ht at 1.
      apply app_inv_head in Ht; discriminate.
    - right; split; [reflexivity|].
      destruct (fs w datadir) as [[|]|] eqn:Hfs.
      + destruct Hout as (Hfst & Htr & _).
        split; [|split].
        * eexists; rewrite Htr; unfold queried; rewrite <- app_assoc; reflexivity.
        * unfold rejected; intros Hr; rewrite Hr in Hfst; simpl in Hfst.
          destruct (exit_status host _ =? 0)%Z; discriminate.
        * intros _ Hz; rewrite Hfst, Hz; simpl; eauto.
      + split; [|split].
        * exists []; rewrite Hout; unfold queried; simpl; rewrite <- app_assoc; reflexivity.
        * unfold rejected; rewrite Hout; intros Hr; inversion Hr.
        * intros Hno; now elim Hno.
      + destruct Hout as (Hfst & Htr & _).
        split; [|split].
        * eexists; rewrite Htr; unfold queried; rewrite <- app_assoc; reflexivity.
        * unfold rejected; intros Hr; rewrite Hr in Hfst; simpl in Hfst.
          destruct (exit_status host _ =? 0)%Z; discriminate.
        * intros _ Hz; rewrite Hfst, Hz; simpl; eauto. }
  assert (H150 : out_of_range (1, 5, 0)%N = false) by reflexivity.
  assert (H160 : out_of_range (1, 6, 0)%N = true) by reflexivity.
  destruct Hcases as [(Hoor & Hrej & Hnacc) | (Hoor & Hacc & Hnrej & Hok)].
  - assert (Hnr : ~ (Version.le3 (1, 4, 5)%N v /\ Version.le3 v (1, 5, 999)%N))
      by (intros Hr; apply Hspec in Hr; congruence).
    split; [tauto|]; split; [tauto|]; split; [|tauto].
    intros Hv; rewrite Hv in Hoor; congruence.
  - assert (Hr : Version.le3 (1, 4, 5)%N v /\ Version.le3 v (1, 5, 999)%N)
      by (now apply Hspec).
    split; [tauto|]; split; [tauto|]; split; [tauto|].
    intros Hv; rewrite Hv in Hoor; congruence.
Qed.

(** C1, on the sample host: versions 1.5.0, 1.4.5 and 1.5.999 pass the gate,
    1.6.0 and 1.4.4 do not. *)
Example version_gate_samples :
  map (fun v => fst (__init__ (Sample.host (Sample.banner v) 0 0) [] "/tmp/eth" Sample.world0))
      ["1.5.0"; "1.4.5"; "1.5.999"; "1.6.0"; "1.4.4"]
  = [Ret Sample.node0; Ret Sample.node0; Ret Sample.node0;
     Raise (OSError "Incompatible Ethereum client 'geth' version: 1.6");
     Raise (OSError "Incompatible Ethereum client 'geth' version: 1.4.4")].
Proof. vm_compute. reflexivity. Qed.

Lemma version_gate_inclusive_range_witness :
  let host := Sample.host (Sample.banner "1.5.0") 0 0 in
  exists o, fst (__init__ host [] "/tmp/eth" Sample.world0) = Ret o.
Proof.
  intros host.
  refine (proj2 (proj1 (proj2 (proj2
            (version_gate_inclusive_range host [] "/tmp/eth" "/usr/bin/geth"
               {| Version.version := (1, 5, 0)%N; Version.prerelease := None |}
               Sample.world0 _ _ _))) _) _ _).
  - reflexivity.
  - discriminate.
  - reflexivity.
  - reflexivity.
  - discriminate.
  - reflexivity.
Defined.

(** ** Construction: failures, and the genesis initialisation *)

Lemma init_not_found host nodes datadir w :
  find_program host "geth" = None \/ find_program host "geth" = Some "" ->
  __init__ host nodes datadir w = (Raise (OSError "Ethereum client 'geth' not found"), w).
Proof. intros [H|H]; unfold __init__; rewrite H; reflexivity. Qed.

Lemma init_no_match host nodes datadir prog w :
  find_program host "geth" = Some prog -> prog <> "" ->
  VersionPattern.search (stdout host [prog; "version"]) = None ->
  __init__ host nodes datadir w =
    (Raise (AttributeError "'NoneType' object has no attribute 'group'"),
     with_trace (trace w ++ [Communicate [prog; "version"]]) w).
Proof.
  intros Hfind Hne Hs; unfold __init__; rewrite Hfind.
  destruct prog; [contradiction|].
  unfold bind at 1, communicate, bind at 1; simpl emit; cbv beta iota.
  unfold ret at 1; rewrite Hs; reflexivity.
Qed.

(** A construction that returns has located a binary inside the range. *)
Lemma init_ret_located host nodes datadir w o :
  fst (__init__ host nodes datadir w) = Ret o ->
  exists prog ver,
    find_program host "geth" = Some prog /\ prog <> "" /\
    reported_version host prog = Some ver /\
    out_of_range (Version.version ver) = false /\
    fs w datadir <> Some RegularFile /\
    exit_status host (init_args host prog datadir) = 0%Z /\
    o = {| port := None; __prog := prog; datadir := datadir;
           __ps := None; rpcport := None; pubkey := None |}.
Proof.
  intros Hret.
  destruct (find_program host "geth") as [prog|] eqn:Hfind;
    [|rewrite init_not_found in Hret by auto; discriminate].
  destruct (string_dec prog "") as [->|Hne];
    [rewrite init_not_found in Hret by auto; discriminate|].
  destruct (VersionPattern.search (stdout host [prog; "version"])) as [g|] eqn:Hs;
    [|rewrite (init_no_match _ _ _ prog) in Hret by auto; discriminate].
  destruct (VersionFacts.search_parse _ _ Hs) as (v & Hv).
  assert (Hrep : reported_version host prog = Some {| Version.version := v;
                                                      Version.prerelease := None |})
    by (unfold reported_version; rewrite Hs; exact Hv).
  pose proof (init_outcome host nodes datadir prog _ w Hfind Hne Hrep) as Hout.
  cbv zeta in Hout.
  exists prog; eexists; split; [reflexivity|]; split; [assumption|]; split; [eassumption|].
  destruct (out_of_range _) eqn:Hoor; [rewrite Hout in Hret; discriminate|].
  split; [reflexivity|].
  destruct (fs w datadir) as [[|]|] eqn:Hfs;
    [ | rewrite Hout in Hret; discriminate | ];
    destruct Hout as (Hfst & _); rewrite Hfst in Hret;
    destruct (exit_status host _ =? 0)%Z eqn:Hz; try discriminate;
    apply Z.eqb_eq in Hz; inversion Hret; repeat split; auto; discriminate.
Qed.

Lemma count_check_call_app args t1 t2 :
  count_check_call args (t1 ++ t2) = count_check_call args t1 + count_check_call args t2.
Proof.
  induction t1 as [|e t1 IH]; simpl; [reflexivity|].
  destruct e; auto.
  rewrite IH; lia.
Qed.

(** Past the gate, with a usable path, [__init__] runs the initialisation
    exactly once. *)
Lemma init_runs_check_call host nodes datadir prog ver w :
  find_program host "geth" = Some prog -> prog <> "" ->
  reported_version host prog = Some ver ->
  out_of_range (Version.version ver) = false ->
  fs w datadir <> Some RegularFile ->
  let r := __init__ host nodes datadir w in
  let ia := init_args host prog datadir in
  count_check_call ia (trace (snd r)) = S (count_check_call ia (trace w))
  /\ fst r = (if (exit_status host ia =? 0)%Z
              then Ret {| port := None; __prog := prog; datadir := datadir;
                          __ps := None; rpcport := None; pubkey := None |}
              else Raise (CalledProcessError (exit_status host ia) ia))
  /\ (exit_status host ia <> 0%Z -> exists t, trace (snd r) = (t ++ [Check_call ia])%list)
  /\ fs (snd r) datadir = Some Directory.
Proof.
  intros Hfind Hne Hrep Hoor Hfs r ia.
  pose proof (init_outcome host nodes datadir prog ver w Hfind Hne Hrep) as Hout.
  cbv zeta in Hout; rewrite Hoor in Hout; fold r ia in Hout.
  clearbody r ia.
  assert (Hout' :
            fst r = (if (exit_status host ia =? 0)%Z
                     then Ret {| port := None; __prog := prog; datadir := datadir;
                                 __ps := None; rpcport := None; pubkey := None |}
                     else Raise (CalledProcessError (exit_status host ia) ia))
            /\ (exists pre,
                  trace (snd r) =
                    (trace w ++ pre ++ [Check_call ia]
                       ++ (if (exit_status host ia =? 0)%Z
                           then [Log_info ("geth init: " ++ Text.join " " ia)]
                           else []))%list
                  /\ count_check_call ia pre = 0)
            /\ fs (snd r) datadir = Some Directory).
  { destruct (fs w datadir) as [dir|] eqn:Hdir0;
      [destruct dir; [|now elim Hfs]|];
      destruct Hout as (Hfst & Htr & Hdir & _); (split; [exact Hfst|]); (split; [|exact Hdir]);
      match type of Htr with
      | _ = (_ ++ ?a ++ ?b ++ ?c ++ _)%list => exists (a ++ b ++ c)%list
      end;
      (split; [rewrite Htr, <- !app_assoc; reflexivity|]);
      destruct nodes; reflexivity. }
  clear Hout; destruct Hout' as (Hfst & (pre & Htr & Hpre) & Hdir).
  split; [|split; [exact Hfst|split; [|exact Hdir]]].
  - rewrite Htr, !count_check_call_app, Hpre; cbn [count_check_call].
    destruct (list_eq_dec string_dec ia ia) as [_|Hn]; [|now elim Hn].
    destruct (exit_status host ia =? 0)%Z; cbn [count_check_call]; lia.
  - intros Hnz; apply Z.eqb_neq in Hnz; rewrite Hnz in Htr.
    exists (trace w ++ pre)%list; rewrite Htr, app_nil_r, app_assoc; reflexivity.
Qed.

Lemma filter_launch_app t1 t2 :
  filter is_launch (t1 ++ t2) = (filter is_launch t1 ++ filter is_launch t2)%list.
Proof. apply filter_app. Qed.

(** [__init__] launches no supervised child, whatever its outcome. *)
Lemma init_never_launches host nodes datadir w :
  let r := __init__ host nodes datadir w in
  spawned (snd r) = spawned w /\
  count_events is_launch (trace (snd r)) = count_events is_launch (trace w).
Proof.
  intros r; subst r; unfold count_events.
  destruct (find_program host "geth") as [prog|] eqn:Hfind;
    [|rewrite init_not_found by auto; auto].
  destruct (string_dec prog "") as [->|Hne];
    [rewrite init_not_found by auto; auto|].
  destruct (VersionPattern.search (stdout host [prog; "version"])) as [g|] eqn:Hs;
    [|rewrite (init_no_match _ _ _ prog) by auto; simpl;
      rewrite filter_launch_app, app_nil_r; auto].
  destruct (VersionFacts.search_parse _ _ Hs) as (v & Hv).
  assert (Hrep : reported_version host prog = Some {| Version.version := v;
                                                      Version.prerelease := None |})
    by (unfold reported_version; rewrite Hs; exact Hv).
  pose proof (init_outcome host nodes datadir prog _ w Hfind Hne Hrep) as Hout.
  cbv zeta in Hout.
  destruct (out_of_range _);
    [rewrite Hout; simpl; rewrite filter_launch_app, app_nil_r; auto|].
  destruct (fs w datadir) as [[|]|];
    [ | rewrite Hout; simpl; rewrite filter_launch_app, app_nil_r; auto | ];
    destruct Hout as (_ & Htr & _ & Hsp); (split; [exact Hsp|]);
    rewrite Htr, filter_launch_app; destruct nodes;
    destruct (exit_status host _ =? 0)%Z; simpl; rewrite app_nil_r; reflexivity.
Qed.

(** C8.  Construction fails with the OSError "Ethereum client 'geth' not
    found" when no executable is found for "geth", leaving the world
    untouched (not even the version query is run), and with the error of
    [re.search(...).group(1)] on [None] when the version pattern does not
    match the output of the version query, having run that query once and
    nothing else.  In both cases no object is returned, and no construction,
    failed or not, launches the supervised child. *)
Theorem construction_fails_before_launch host nodes datadir w :
  let r := __init__ host nodes datadir w in
  ((find_program host "geth" = None \/ find_program host "geth" = Some "") ->
   r = (Raise (OSError "Ethereum client 'geth' not found"), w))
  /\ (forall prog,
        find_program host "geth" = Some prog -> prog <> "" ->
        VersionPattern.search (stdout host [prog; "version"]) = None ->
        r = (Raise (AttributeError "'NoneType' object has no attribute 'group'"),
             with_trace (trace w ++ [Communicate [prog; "version"]]) w))
  /\ spawned (snd r) = spawned w
  /\ count_events is_launch (trace (snd r)) = count_events is_launch (trace w).
Proof.
  intros r; split; [|split].
  - apply init_not_found.
  - intros prog; apply init_no_match.
  - apply init_never_launches.
Qed.

Lemma construction_fails_before_launch_witness :
  __init__ Sample.no_geth [] "/tmp/eth" Sample.world0
    = (Raise (OSError "Ethereum client 'geth' not found"), Sample.world0)
  /\ fst (__init__ (Sample.host "geth: no version here" 0 0) [] "/tmp/eth" Sample.world0)
     = Raise (AttributeError "'NoneType' object has no attribute 'group'").
Proof.
  split.
  - apply (proj1 (construction_fails_before_launch Sample.no_geth [] "/tmp/eth"
                    Sample.world0)).
    left; reflexivity.
  - rewrite (proj1 (proj2 (construction_fails_before_launch
                             (Sample.host "geth: no version here" 0 0) [] "/tmp/eth"
                             Sample.world0)) "/usr/bin/geth");
      [reflexivity | reflexivity | discriminate | reflexivity].
Defined.

(** C6.  The genesis initialisation [prog --datadir datadir init genesis]
    is run once by every construction that returns, and by every
    construction that gets past the version gate with a usable path, whether
    the data directory existed before or not; a construction on the
    directory a previous construction has just initialised runs it again.
    When the command exits with a non-zero status construction raises
    CalledProcessError right after it: nothing is done afterwards and no
    object is returned. *)
Theorem genesis_init_every_construction host nodes datadir w :
  let r := __init__ host nodes datadir w in
  (forall o, fst r = Ret o ->
     let ia := init_args host (__prog o) datadir in
     count_check_call ia (trace (snd r)) = S (count_check_call ia (trace w))
     /\ exit_status host ia = 0%Z
     /\ (let r2 := __init__ host nodes datadir (snd r) in
         fst r2 = Ret o /\
         count_check_call ia (trace (snd r2)) = S (S (count_check_call ia (trace w)))))
  /\ (forall prog ver,
        find_program host "geth" = Some prog -> prog <> "" ->
        reported_version host prog = Some ver ->
        out_of_range (Version.version ver) = false ->
        fs w datadir <> Some RegularFile ->
        let ia := init_args host prog datadir in
        count_check_call ia (trace (snd r)) = S (count_check_call ia (trace w))
        /\ (exit_status host ia <> 0%Z ->
            fst r = Raise (CalledProcessError (exit_status host ia) ia)
            /\ exists t, trace (snd r) = (t ++ [Check_call ia])%list)
        /\ (exit_status host ia = 0%Z -> exists o, fst r = Ret o)).
Proof.
  intros r; split.
  - intros o Hret ia.
    destruct (init_ret_located _ _ _ _ _ Hret)
      as (prog & ver & Hfind & Hne & Hrep & Hoor & Hfs & Hz & Ho).
    assert (Hprog : __prog o = prog) by (rewrite Ho; reflexivity).
    subst ia; rewrite Hprog.
    destruct (init_runs_check_call host nodes datadir prog ver w Hfind Hne Hrep Hoor Hfs)
      as (Hcount & Hfst & _ & Hdir).
    fold r in Hcount, Hfst, Hdir.
    split; [exact Hcount|]; split; [exact Hz|].
    assert (Hfs2 : fs (snd r) datadir <> Some RegularFile) by (rewrite Hdir; discriminate).
    destruct (init_runs_check_call host nodes datadir prog ver (snd r)
                Hfind Hne Hrep Hoor Hfs2) as (Hcount2 & Hfst2 & _).
    cbv zeta; split.
    + rewrite Hfst2, Hz, Ho; reflexivity.
    + rewrite Hcount2, Hcount; reflexivity.
  - intros prog ver Hfind Hne Hrep Hoor Hfs ia.
    destruct (init_runs_check_call host nodes datadir prog ver w Hfind Hne Hrep Hoor Hfs)
      as (Hcount & Hfst & Hlast & _).
    fold r ia in Hcount, Hfst, Hlast.
    split; [exact Hcount|]; split.
    + intros Hnz; split; [|now apply Hlast].
      rewrite Hfst; apply Z.eqb_neq in Hnz; rewrite Hnz; reflexivity.
    + intros Hz; rewrite Hfst, Hz; simpl; eauto.
Qed.

Lemma genesis_init_every_construction_witness :
  let host := Sample.host (Sample.banner "1.5.0") 1 0 in
  fst (__init__ host [] "/tmp/eth" Sample.world0)
  = Raise (CalledProcessError 1 (init_args host "/usr/bin/geth" "/tmp/eth")).
Proof.
  intros host.
  refine (proj1 (proj1 (proj2 (proj2
            (genesis_init_every_construction host [] "/tmp/eth" Sample.world0)
            "/usr/bin/geth"
            {| Version.version := (1, 5, 0)%N; Version.prerelease := None |}
            _ _ _ _ _)) _)).
  - reflexivity.
  - discriminate.
  - reflexivity.
  - reflexivity.
  - discriminate.
  - discriminate.
Defined.

(** ** The methods, evaluated *)

Lemma stop_under_not_running psutil o w :
  __ps o = None -> stop_under psutil (o, w) = (Ret tt, (o, w)).
Proof. intros H; unfold stop_under, bind, self; simpl; rewrite H; reflexivity. Qed.

(** What [stop] does with a process, by the answers of psutil. *)
Lemma stop_under_running psutil o w ps :
  __ps o = Some ps ->
  stop_under psutil (o, w) =
    let warn := Log_warn ("Cannot terminate node: process "
                          ++ Text.str_nat (pid ps) ++ " no longer exists") in
    let returned t := (Ret tt, (set_rpcport None (set_ps None o),
                                with_trace (trace w ++ t) w)) in
    match terminate_raises psutil (pid ps) with
    | Some (NoSuchProcess _) => returned [Terminate (pid ps); warn; Log_terminated]
    | Some e => (Raise e, (o, with_trace (trace w ++ [Terminate (pid ps)]) w))
    | None =>
        match wait_raises psutil (pid ps) with
        | Some (NoSuchProcess _) =>
            returned [Terminate (pid ps); Wait (pid ps); warn; Log_terminated]
        | Some e =>
            (Raise e, (o, with_trace (trace w ++ [Terminate (pid ps); Wait (pid ps)]) w))
        | None => returned [Terminate (pid ps); Wait (pid ps); Log_terminated]
        end
    end.
Proof.
  intros H; unfold stop_under, bind at 1, self; cbn [fst]; rewrite H.
  unfold try_except, bind, world, terminate, wait, assign, emit, bind, ret, raise.
  cbn [fst snd].
  destruct (terminate_raises psutil (pid ps)) as [e|]; cbn [fst snd trace with_trace].
  - destruct e; cbn [fst snd trace with_trace]; rewrite <- ?app_assoc; reflexivity.
  - destruct (wait_raises psutil (pid ps)) as [e|]; cbn [fst snd trace with_trace].
    + destruct e; cbn [fst snd trace with_trace]; rewrite <- ?app_assoc; reflexivity.
    + rewrite <- !app_assoc; reflexivity.
Qed.

Lemma stop_not_running host o w :
  __ps o = None -> stop host (o, w) = (Ret tt, (o, w)).
Proof. intros H; unfold stop; apply stop_under_not_running; exact H. Qed.

Lemma stop_running host o w ps :
  __ps o = Some ps ->
  stop host (o, w) =
    (Ret tt, (set_rpcport None (set_ps None o),
              with_trace (trace w ++ stop_events host ps) w)).
Proof.
  intros H; unfold stop; rewrite (stop_under_running _ o w ps H).
  unfold stop_events, psutil_of; cbn [terminate_raises wait_raises].
  destruct (terminate_gone host (pid ps)); [reflexivity|].
  destruct (wait_gone host (pid ps)); reflexivity.
Qed.

Lemma start_running host fuel rpc mining nodekey port o w :
  is_running o = true ->
  start host fuel rpc mining nodekey port (o, w) = (Ret tt, (o, w)).
Proof.
  intros H; unfold start, bind at 1, self; cbn [fst].
  unfold is_running in H; rewrite H; reflexivity.
Qed.

Lemma start_launches host fuel rpc mining nodekey port o w :
  is_running o = false ->
  start host fuel rpc mining nodekey port (o, w) =
    match poll host fuel 0 (launched host rpc mining nodekey port o w) with
    | (Ret wait_time, s) =>
        (Ret tt,
         (fst s,
          with_trace
            (trace (snd s)
               ++ [Log_started wait_time
                     (Text.join " " (launch_vector host rpc mining nodekey port o w))])
            (snd s)))
    | (Raise e, s) => (Raise e, s)
    | (Polling, s) => (Polling, s)
    end.
Proof.
  intros H; unfold start, bind at 1, self; cbn [fst].
  unfold is_running in H; rewrite H.
  destruct o as [p0 prog0 dd0 ps0 rp0 pk0].
  destruct port as [[|p|p]|], rpc, nodekey as [[|c k]|], mining.
  all: try reflexivity.
Qed.

(** ** The readiness loop *)

Lemma poll_without_rpcport host fuel wt o w :
  truthy_int (rpcport o) = false ->
  poll host (S fuel) wt (o, w) = (Ret (S wt), (o, with_trace (trace w ++ [Sleep]) w)).
Proof.
  intros H; cbn [poll].
  unfold bind, world, emit, self; cbn [fst snd]; rewrite H; reflexivity.
Qed.

Lemma poll_round host fuel wt o w ps p :
  __ps o = Some ps -> rpcport o = Some p -> p <> 0%Z ->
  poll host (S fuel) wt (o, w) =
    if seen host ps p w 0 then (Ret (S wt), (o, polled ps w))
    else poll host fuel (S wt) (o, polled ps w).
Proof.
  intros Hps Hrp Hp; cbn [poll].
  unfold bind at 1, world at 1, emit; cbn [fst snd].
  unfold bind at 1, self; cbn [fst snd].
  rewrite Hrp, Hps; cbn [truthy_int].
  apply Z.eqb_neq in Hp; rewrite Hp; cbn [negb].
  unfold bind, world, connections, seen; cbn [fst snd listings with_trace Nat.add].
  destruct (existsb _ _); reflexivity.
Qed.





(** The loop reads the object and never assigns to it. *)
Lemma poll_preserves_self host fuel :
  forall wt o w, fst (snd (poll host fuel wt (o, w))) = o.
Proof.
  induction fuel as [|fuel IH]; intros wt o w; [reflexivity|].
  destruct (truthy_int (rpcport o)) eqn:Ht.
  - destruct (rpcport o) as [p|] eqn:Hrp; [|discriminate].
    assert (Hp : p <> 0%Z) by (intros ->; discriminate).
    destruct (__ps o) as [ps|] eqn:Hps.
    + rewrite (poll_round _ _ _ _ _ ps p) by assumption.
      destruct (seen host ps p w 0); [reflexivity | apply IH].
    + cbn [poll]; unfold bind, world, emit, self; cbn [fst snd].
      rewrite Hrp, Hps; cbn [truthy_int].
      apply Z.eqb_neq in Hp; rewrite Hp; reflexivity.
  - rewrite poll_without_rpcport by assumption; reflexivity.
Qed.

(** The state of the object after a [start] that launches, whether the loop
    has returned or is still polling. *)
Lemma start_launches_self host fuel rpc mining nodekey port o w :
  is_running o = false ->
  fst (snd (start host fuel rpc mining nodekey port (o, w)))
  = fst (launched host rpc mining nodekey port o w).
Proof.
  intros H; rewrite start_launches by assumption.
  pose proof (poll_preserves_self host fuel 0
                (fst (launched host rpc mining nodekey port o w))
                (snd (launched host rpc mining nodekey port o w))) as Hp.
  rewrite <- surjective_pairing in Hp.
  destruct (poll host fuel 0 _) as [[n| |] s]; exact Hp.
Qed.

(** C3.  A call of [start] on a supervisor that is running returns at once
    and changes neither the object nor the world: no second process is
    launched, nothing is slept or polled (the fuel of the readiness loop is
    not touched, it may be 0), no port is allocated, and nothing is raised. *)
Theorem start_while_running_is_noop host fuel rpc mining nodekey port o w :
  is_running o = true ->
  start host fuel rpc mining nodekey port (o, w) = (Ret tt, (o, w)).
Proof.
  intros H; unfold start, bind at 1, self; cbn [fst].
  unfold is_running in H; rewrite H; reflexivity.
Qed.

(** C2 (amended).  [stop] raises nothing of its own, and nothing at all
    unless [terminate] or [wait] raises an exception other than
    [NoSuchProcess].  With no process it does nothing (no event, no log
    line).  With a process it asks for termination and waits: when both
    calls return, or one of them raises [NoSuchProcess] (which is caught and
    answered by a warning in the log), [stop] returns with the handle and
    [rpcport] set to [None], so that [is_running] is false and a second
    [stop] returns too and changes nothing.  Any other exception of the two
    calls leaves [stop] before the assignments: it reaches the caller, the
    handle and [rpcport] are as they were, the supervisor still counts as
    running and no termination is logged.  On a host whose psutil raises
    nothing but [NoSuchProcess], [stop] therefore always returns. *)
Theorem stop_raises_what_it_does_not_catch psutil o w :
  let r1 := stop_under psutil (o, w) in
  let r2 := stop_under psutil (snd r1) in
  (is_running o = false -> r1 = (Ret tt, (o, w)))
  /\ (forall ps, __ps o = Some ps ->
        match raised_in_stop psutil ps with
        | None =>
            r1 = (Ret tt, (set_rpcport None (set_ps None o),
                           with_trace (trace w ++ asked psutil ps ++ [Log_terminated]) w))
        | Some e =>
            if caught e then
              r1 = (Ret tt, (set_rpcport None (set_ps None o),
                             with_trace (trace w ++ asked psutil ps
                                           ++ [gone_warning ps; Log_terminated]) w))
            else
              r1 = (Raise e, (o, with_trace (trace w ++ asked psutil ps) w))
              /\ is_running (fst (snd r1)) = true
              /\ rpcport (fst (snd r1)) = rpcport o
        end)
  /\ (fst r1 = Ret tt ->
        is_running (fst (snd r1)) = false /\ r2 = (Ret tt, snd r1))
  /\ (forall e, fst r1 = Raise e ->
        caught e = false
        /\ exists ps, __ps o = Some ps /\ raised_in_stop psutil ps = Some e)
  /\ fst r1 <> Polling
  /\ (forall host, psutil = psutil_of host -> fst r1 = Ret tt).
Proof.
  cbv zeta.
  destruct (__ps o) as [ps|] eqn:Hps.
  - rewrite (stop_under_running psutil o w ps Hps); cbv zeta.
    unfold raised_in_stop, asked, gone_warning.
    (split; [unfold is_running; rewrite Hps; discriminate|]).
    destruct (terminate_raises psutil (pid ps)) as [e1|] eqn:Ht;
      [destruct e1
      |destruct (wait_raises psutil (pid ps)) as [e2|] eqn:Hw; [destruct e2|]];
      cbn [fst snd];
      (split;
       [intros ps' Heq; inversion Heq; subst ps'; rewrite ?Ht, ?Hw; cbn [caught fst snd];
        first [reflexivity
              |split; [reflexivity|]; split; [unfold is_running; rewrite Hps|]; reflexivity]
       |]);
      (split;
       [first [discriminate
              |intros _; split; [reflexivity|apply stop_under_not_running; reflexivity]]
       |]);
      (split;
       [first [discriminate
              |intros e He; inversion He; subst; split; [reflexivity|];
               exists ps; rewrite ?Ht, ?Hw; split; reflexivity]
       |]);
      (split; [discriminate|]);
      intros host ->; unfold psutil_of in *; cbn [terminate_raises wait_raises] in *;
      first [reflexivity
            |destruct (terminate_gone host (pid ps)); discriminate
            |destruct (wait_gone host (pid ps)); discriminate].
  - rewrite (stop_under_not_running psutil o w Hps); cbn [fst snd].
    rewrite (stop_under_not_running psutil o w Hps).
    unfold is_running; rewrite Hps.
    split; [reflexivity|].
    split; [intros ps Heq; discriminate|].
    split; [intros _; split; reflexivity|].
    split; [intros e He; discriminate|].
    split; [discriminate|reflexivity].
Qed.

(** C10.  [stop] leaves the binary path, the data directory, the peer port
    and the stored public key as they were; so after a [start] that launched
    and returned, followed by [stop], the peer port is still the one that
    [start] assigned. *)
Theorem stop_frame host o w :
  let o' := fst (snd (stop host (o, w))) in
  __prog o' = __prog o
  /\ datadir o' = datadir o
  /\ port o' = port o
  /\ pubkey o' = pubkey o
  /\ (forall fuel rpc mining nodekey p o0 w0,
        is_running o0 = false ->
        start host fuel rpc mining nodekey p (o0, w0) = (Ret tt, (o, w)) ->
        port o' = Some (peer_port host p w0)).
Proof.
  cbv zeta.
  assert (Hframe : __prog (fst (snd (stop host (o, w)))) = __prog o
                   /\ datadir (fst (snd (stop host (o, w)))) = datadir o
                   /\ port (fst (snd (stop host (o, w)))) = port o
                   /\ pubkey (fst (snd (stop host (o, w)))) = pubkey o).
  { destruct (__ps o) as [ps|] eqn:Hps.
    - rewrite (stop_running host o w ps Hps); cbn; auto.
    - rewrite (stop_not_running host o w Hps); cbn; auto. }
  destruct Hframe as (H1 & H2 & H3 & H4).
  repeat (split; [assumption|]).
  intros fuel rpc mining nodekey p o0 w0 Hrun Hstart.
  rewrite H3.
  pose proof (start_launches_self host fuel rpc mining nodekey p o0 w0 Hrun) as Hself.
  rewrite Hstart in Hself; cbn [fst snd] in Hself.
  rewrite Hself; reflexivity.
Qed.

(** The loop only appends sleeps and connection listings to the trace; it
    allocates no port and launches nothing. *)
Lemma poll_world host fuel :
  forall wt o w,
    let w' := snd (snd (poll host fuel wt (o, w))) in
    (exists t, trace w' = (trace w ++ t)%list /\ filter is_launch t = [])
    /\ allocated w' = allocated w
    /\ spawned w' = spawned w.
Proof.
  induction fuel as [|fuel IH]; intros wt o w; cbv zeta.
  - cbn [poll polling fst snd]; split; [|split]; try reflexivity.
    exists []; rewrite app_nil_r; auto.
  - destruct (truthy_int (rpcport o)) eqn:Ht.
    + destruct (rpcport o) as [p|] eqn:Hrp; [|discriminate].
      assert (Hp : p <> 0%Z) by (intros ->; discriminate).
      destruct (__ps o) as [ps|] eqn:Hps.
      * rewrite (poll_round _ _ _ _ _ ps p) by assumption.
        destruct (seen host ps p w 0).
        -- cbn [fst snd polled trace allocated spawned]; split; [|split]; try reflexivity.
           exists [Sleep; Connections (pid ps)]; rewrite <- app_assoc; auto.
        -- destruct (IH (S wt) o (polled ps w)) as ((t & Ht' & Hl) & Ha & Hs).
           split; [|split]; [|exact Ha|exact Hs].
           exists (Sleep :: Connections (pid ps) :: t); split; [|exact Hl].
           rewrite Ht'; cbn [polled trace]; rewrite <- !app_assoc; reflexivity.
      * cbn [poll]; unfold bind, world, emit, self; cbn [fst snd].
        rewrite Hrp, Hps; cbn [truthy_int].
        apply Z.eqb_neq in Hp; rewrite Hp; cbn [negb raise fst snd trace with_trace];
          split; [|split]; try reflexivity.
        exists [Sleep]; auto.
    + rewrite poll_without_rpcport by assumption.
      cbn [fst snd trace with_trace]; split; [|split]; try reflexivity.
      exists [Sleep]; auto.
Qed.

(** The world after a [start] that launches. *)
Lemma start_launches_world host fuel rpc mining nodekey port o w :
  is_running o = false ->
  let w' := snd (snd (start host fuel rpc mining nodekey port (o, w))) in
  (exists t,
     trace w' = (trace w ++ Launch (launched_process host rpc mining nodekey port o w)
                   :: Atexit_register :: t)%list
     /\ filter is_launch t = [])
  /\ allocated w' = (if rpc then 1 else 0) + ((if truthy_int port then 0 else 1) + allocated w)
  /\ spawned w' = S (spawned w).
Proof.
  intros H; cbv zeta; rewrite start_launches by assumption.
  pose proof (poll_world host fuel 0
                (fst (launched host rpc mining nodekey port o w))
                (snd (launched host rpc mining nodekey port o w))) as Hp.
  cbv zeta in Hp; rewrite <- surjective_pairing in Hp.
  destruct Hp as ((t & Ht & Hl) & Ha & Hs).
  destruct (poll host fuel 0 _) as [[n| |] s]; cbn [fst snd] in *;
    cbn [trace allocated spawned with_trace];
    rewrite ?Ht, ?Ha, ?Hs; cbn [launched snd trace allocated spawned];
    (split; [|split; reflexivity]).
  - exists (t ++ [Log_started n
                    (Text.join " " (launch_vector host rpc mining nodekey port o w))])%list.
    split; [rewrite <- !app_assoc; reflexivity|].
    rewrite filter_launch_app, Hl; reflexivity.
  - exists t; split; [rewrite <- !app_assoc; reflexivity | exact Hl].
  - exists t; split; [rewrite <- !app_assoc; reflexivity | exact Hl].
Qed.

(** C7.  A [start] that launches passes the child this argument vector: the
    binary, the data directory, networkid 9, the peer port, nodiscover,
    ipcdisable, gasprice 0 and verbosity 3 always; then the RPC flags with
    the allocated RPC port exactly when [rpc]; then the node key in
    hexadecimal exactly when a (non-empty) node key is given, in which case
    the public key derived from it is stored; then the etherbase (the faucet
    address in hexadecimal) and the mining script exactly when [mining].
    Exactly one process is launched, with that vector. *)
Theorem start_argument_vector host fuel (rpc mining : bool) (nodekey : option string)
        (explicit : option Z) o w :
  is_running o = false ->
  let peer := peer_port host explicit w in
  let rp := rpc_port host explicit w in
  let args :=
    ([ __prog o; "--datadir"; datadir o; "--networkid"; "9";
       "--port"; Text.str_Z peer;
       "--nodiscover"; "--ipcdisable"; "--gasprice"; "0"; "--verbosity"; "3" ]
     ++ (if rpc then ["--rpc"; "--rpcport"; Text.str_Z rp] else [])
     ++ (match nodekey with
         | Some k => if truthy_str nodekey then ["--nodekeyhex"; Text.encode_hex k] else []
         | None => []
         end)
     ++ (if mining
         then ["--etherbase";
               Text.encode_hex (privtoaddr host (Text.pad32 "Golem Faucet"));
               "js";
               Text.path_join (module_dir host) "mine_pending_transactions.js"]
         else []))%list in
  let s' := snd (start host fuel rpc mining nodekey explicit (o, w)) in
  __ps (fst s') = Some {| pid := spawned w; cmdline := args |}
  /\ (exists t, trace (snd s') =
                (trace w ++ Launch {| pid := spawned w; cmdline := args |}
                   :: Atexit_register :: t)%list)
  /\ count_events is_launch (trace (snd s')) = S (count_events is_launch (trace w))
  /\ port (fst s') = Some peer
  /\ rpcport (fst s') = (if rpc then Some rp else rpcport o)
  /\ pubkey (fst s') = (match nodekey with
                        | Some k => if truthy_str nodekey then Some (privtopub host k)
                                    else pubkey o
                        | None => pubkey o
                        end).
Proof.
  intros H; cbv zeta.
  rewrite (start_launches_self host fuel rpc mining nodekey explicit o w H).
  destruct (start_launches_world host fuel rpc mining nodekey explicit o w H)
    as ((t & Ht & Hl) & _ & _).
  cbv zeta in Ht.
  split; [reflexivity|]; split; [exists t; exact Ht|]; split; [|repeat split].
  unfold count_events; rewrite Ht, filter_launch_app; cbn [filter is_launch].
  rewrite Hl, length_app; cbn [List.length]; lia.
Qed.

Lemma start_argument_vector_witness :
  let host := Sample.host (Sample.banner "1.5.0") 0 1 in
  __ps (fst (snd (start host 5 true true (Some "k") (Some 30900%Z)
                    (Sample.node0, Sample.world0))))
  = Some {| pid := 0;
            cmdline := ["/usr/bin/geth"; "--datadir"; "/tmp/eth"; "--networkid"; "9";
                        "--port"; "30900"; "--nodiscover"; "--ipcdisable";
                        "--gasprice"; "0"; "--verbosity"; "3";
                        "--rpc"; "--rpcport"; "40000";
                        "--nodekeyhex"; "6b";
                        "--etherbase"; "61646472"; "js";
                        "/opt/golem/ethereum/mine_pending_transactions.js"] |}.
Proof.
  intros host.
  exact (proj1 (start_argument_vector host 5 true true (Some "k") (Some 30900%Z)
                  Sample.node0 Sample.world0 eq_refl)).
Defined.

(** C9.  A [start] that launches, called with the explicit port 0, does
    exactly what it does when called without a port: it asks for a free
    port, stores that port (which is not 0) as the peer port and passes it,
    not 0, to the child after "--port". *)
Theorem explicit_port_zero_is_absent host fuel (rpc mining : bool)
        (nodekey : option string) o w :
  is_running o = false ->
  let r := start host fuel rpc mining nodekey (Some 0%Z) (o, w) in
  let fresh := Z.pos (free_port host (allocated w)) in
  r = start host fuel rpc mining nodekey None (o, w)
  /\ port (fst (snd r)) = Some fresh
  /\ fresh <> 0%Z
  /\ (exists ps, __ps (fst (snd r)) = Some ps
                 /\ nth_error (cmdline ps) 5 = Some "--port"
                 /\ nth_error (cmdline ps) 6 = Some (Text.str_Z fresh)
                 /\ nth_error (cmdline ps) 6 <> Some (Text.str_Z 0))
  /\ allocated (snd (snd r)) = (if rpc then 2 else 1) + allocated w.
Proof.
  intros H; cbv zeta.
  split; [rewrite !start_launches by assumption; reflexivity|].
  rewrite (start_launches_self host fuel rpc mining nodekey (Some 0%Z) o w H).
  destruct (start_launches_world host fuel rpc mining nodekey (Some 0%Z) o w H)
    as (_ & Ha & _).
  cbv zeta in Ha.
  split; [reflexivity|]; split; [discriminate|]; split.
  - eexists; split; [reflexivity|]; split; [reflexivity|]; split; [reflexivity|].
    cbn [launched fst __ps launched_process cmdline launch_vector app nth_error].
    intros Heq; inversion Heq as [Hs]; apply TextFacts.str_Z_inj in Hs; discriminate.
  - rewrite Ha; destruct rpc; reflexivity.
Qed.

Lemma explicit_port_zero_is_absent_witness :
  let host := Sample.host (Sample.banner "1.5.0") 0 1 in
  port (fst (snd (start host 5 false false None (Some 0%Z) (Sample.node0, Sample.world0))))
  = Some 40000%Z.
Proof.
  intros host.
  exact (proj1 (proj2 (explicit_port_zero_is_absent host 5 false false None
                         Sample.node0 Sample.world0 eq_refl))).
Defined.



(** ** Sequences of calls *)




(** ** The theorems at work on the sample host *)

Lemma start_while_running_is_noop_witness :
  let host := Sample.host (Sample.banner "1.5.0") 0 0 in
  let s := snd (start host 3 false false None None (Sample.node0, Sample.world0)) in
  is_running (fst s) = true /\
  start host 0 true true (Some "k") (Some 30900%Z) s = (Ret tt, s).
Proof.
  intros host s; split; [reflexivity|].
  exact (start_while_running_is_noop host 0 true true (Some "k") (Some 30900%Z)
           (fst s) (snd s) eq_refl).
Defined.

Lemma stop_raises_what_it_does_not_catch_witness :
  let host := Sample.host (Sample.banner "1.5.0") 0 0 in
  let s := snd (start host 3 true false None None (Sample.node0, Sample.world0)) in
  let r1 := stop_under Sample.lost (fst s, snd s) in
  is_running (fst s) = true
  /\ fst r1 = Ret tt
  /\ is_running (fst (snd r1)) = false
  /\ stop_under Sample.lost (snd r1) = (Ret tt, snd r1).
Proof.
  intros host s r1.
  pose proof (stop_raises_what_it_does_not_catch Sample.lost (fst s) (snd s)) as H;
    cbv zeta in H.
  destruct H as (_ & Hcases & Hret & _).
  assert (H1 : fst r1 = Ret tt).
  { destruct (__ps (fst s)) as [ps|] eqn:Hps; [|vm_compute in Hps; discriminate].
    pose proof (Hcases ps eq_refl) as Hc.
    unfold raised_in_stop, Sample.lost in Hc;
      cbn [terminate_raises wait_raises caught] in Hc.
    exact (f_equal fst Hc). }
  split; [reflexivity|]; split; [exact H1|].
  exact (Hret H1).
Defined.

(** The claim as the specification has it, "stop never raises and afterwards
    the supervisor is not running", on a child that psutil refuses to
    signal: the exception reaches the caller of [stop], and the handle and
    [rpcport] are still set. *)
Lemma stop_raises_access_denied :
  let host := Sample.host (Sample.banner "1.5.0") 0 0 in
  let s := snd (start host 3 true false None None (Sample.node0, Sample.world0)) in
  let r := stop_under Sample.denied s in
  is_running (fst s) = true
  /\ fst r = Raise (AccessDenied 0)
  /\ is_running (fst (snd r)) = true
  /\ rpcport (fst (snd r)) = Some 40001%Z.
Proof. vm_compute. repeat split; reflexivity. Qed.

Lemma stop_frame_witness :
  let host := Sample.host (Sample.banner "1.5.0") 0 0 in
  let s := snd (start host 3 true false (Some "k") None (Sample.node0, Sample.world0)) in
  port (fst (snd (stop host s))) = Some 40000%Z
  /\ pubkey (fst (snd (stop host s))) = Some "pub:k".
Proof.
  intros host s.
  pose proof (stop_frame host (fst s) (snd s)) as H; cbv zeta in H.
  destruct H as (_ & _ & _ & Hpk & Hport).
  split.
  - exact (Hport 3 true false (Some "k") None Sample.node0 Sample.world0 eq_refl eq_refl).
  - exact Hpk.
Defined.



(** The invariant is about the run, not about the last call: a [start]
    with [rpc] false made during a run with RPC changes nothing, and
    [rpcport] stays set. *)
Example start_without_rpc_during_rpc_run :
  let host := Sample.host (Sample.banner "1.5.0") 0 0 in
  let cs := [Start true false None None; Start false false None None] in
  rpcport (fst (snd (run_calls host 3 cs (Sample.node0, Sample.world0)))) = Some 40001%Z
  /\ rpc_requested_for_run None cs = Some true.
Proof. vm_compute; split; reflexivity. Qed.

(** * Further properties of the module *)

(** ** Construction and the file system *)

(** The file system and the allocator after [__init__] got past the gate on
    a usable path. *)
Lemma init_outcome_fs host nodes datadir prog ver w :
  find_program host "geth" = Some prog -> prog <> "" ->
  reported_version host prog = Some ver ->
  out_of_range (Version.version ver) = false ->
  fs w datadir <> Some RegularFile ->
  let r := __init__ host nodes datadir w in
  let nodes_file := Text.path_join datadir "static-nodes.json" in
  (forall q,
      fs (snd r) q =
        if truthy_list nodes && (q =? nodes_file) then Some RegularFile
        else if negb (truthy_obj (fs w datadir)) && (q =? datadir) then Some Directory
             else fs w q)
  /\ allocated (snd r) = allocated w
  /\ listings (snd r) = listings w.
Proof.
  intros Hfind Hne Hrep Hoor Husable.
  destruct (reported_version_plain _ _ _ Hrep) as (g & Hs & Hp & Hpre).
  cbv zeta.
  remember (__init__ host nodes datadir w) as r eqn:Hr.
  unfold __init__ in Hr; rewrite Hfind in Hr.
  destruct prog as [|c0 prog0]; [contradiction|].
  set (prog := String c0 prog0) in *.
  unfold bind at 1, communicate, bind at 1 in Hr; simpl emit in Hr; cbv beta iota in Hr.
  unfold ret at 1 in Hr; rewrite Hs, Hp in Hr.
  rewrite gate_eval in Hr by assumption.
  rewrite Hoor in Hr.
  fold (init_args host prog datadir) in Hr.
  set (ia := init_args host prog datadir) in *.
  clearbody ia prog.
  unfold path_exists, path_isdir, makedirs, save, write_fs, check_call in Hr.
  unfold bind, emit, ret, raise in Hr.
  crunch_in Hr.
  destruct (fs w datadir) as [[|]|] eqn:Hfs; [ | now elim Husable | ];
    crunch_in Hr; rewrite ?Hfs in Hr; crunch_in Hr;
    destruct nodes as [|n0 nodes0]; crunch_in Hr;
    destruct (exit_status host ia =? 0)%Z eqn:Hz; crunch_in Hr; subst r;
    cbn [fst snd fs allocated listings with_fs with_trace truthy_obj truthy_list
         negb andb];
    (split; [|split; reflexivity]); intros q; try reflexivity.
Qed.

Lemma count_events_app f t1 t2 :
  count_events f (t1 ++ t2) = count_events f t1 + count_events f t2.
Proof. unfold count_events; rewrite filter_app, length_app; reflexivity. Qed.

(** X1.  A construction that fails at one of its own checks (no binary, no
    version in its output, a version out of range, a path that exists and is
    not a directory) has changed nothing on disk and has asked for no
    change: no directory creation, no static-nodes file, no initialisation.
    The binary, its version and the kind of the path are all checked before
    anything is written.  (A failure of [os.makedirs] or of the
    initialisation itself is none of these.) *)
Theorem init_failure_leaves_disk_untouched host nodes datadir w e :
  let r := __init__ host nodes datadir w in
  fst r = Raise e ->
  raised_by_check datadir e ->
  (forall q, fs (snd r) q = fs w q)
  /\ count_events is_makedirs (trace (snd r)) = count_events is_makedirs (trace w)
  /\ count_events is_save (trace (snd r)) = count_events is_save (trace w)
  /\ count_events is_check_call (trace (snd r)) = count_events is_check_call (trace w).
Proof.
  cbv zeta; intros Hraise Hown.
  assert (Hother : forall code cmd, e <> CalledProcessError code cmd).
  { intros code cmd; destruct Hown as [->|[->|[[v ->]| ->]]]; discriminate. }
  clear Hown.
  assert (Hquery : forall prog,
             (forall q, fs (with_trace (trace w ++ [Communicate [prog; "version"]]) w) q
                        = fs w q)
             /\ count_events is_makedirs (trace w ++ [Communicate [prog; "version"]])
                = count_events is_makedirs (trace w)
             /\ count_events is_save (trace w ++ [Communicate [prog; "version"]])
                = count_events is_save (trace w)
             /\ count_events is_check_call (trace w ++ [Communicate [prog; "version"]])
                = count_events is_check_call (trace w)).
  { intros prog; rewrite !count_events_app; cbn; repeat split; lia. }
  destruct (find_program host "geth") as [prog|] eqn:Hfind;
    [|rewrite init_not_found by auto; cbn; auto].
  destruct (string_dec prog "") as [->|Hne];
    [rewrite init_not_found by auto; cbn; auto|].
  destruct (VersionPattern.search (stdout host [prog; "version"])) as [g|] eqn:Hs;
    [|rewrite (init_no_match _ _ _ prog) by auto; apply Hquery].
  destruct (VersionFacts.search_parse _ _ Hs) as (v & Hv).
  assert (Hrep : reported_version host prog = Some {| Version.version := v;
                                                      Version.prerelease := None |})
    by (unfold reported_version; rewrite Hs; exact Hv).
  pose proof (init_outcome host nodes datadir prog _ w Hfind Hne Hrep) as Hout.
  cbv zeta in Hout.
  destruct (out_of_range _); [rewrite Hout; apply Hquery|].
  destruct (fs w datadir) as [[|]|].
  - destruct Hout as (Hfst & _); rewrite Hfst in Hraise.
    destruct (exit_status host _ =? 0)%Z; [discriminate|].
    inversion Hraise; subst e; now elim (Hother _ _ eq_refl).
  - rewrite Hout; cbn [snd fs trace with_trace].
    rewrite !count_events_app; cbn; repeat split; lia.
  - destruct Hout as (Hfst & _); rewrite Hfst in Hraise.
    destruct (exit_status host _ =? 0)%Z; [discriminate|].
    inversion Hraise; subst e; now elim (Hother _ _ eq_refl).
Qed.

Lemma init_failure_leaves_disk_untouched_witness :
  let host := Sample.host (Sample.banner "1.6.0") 0 0 in
  fs (snd (__init__ host ["enode://a"] "/tmp/eth" Sample.world0)) "/tmp/eth"
  = fs Sample.world0 "/tmp/eth".
Proof.
  intros host.
  refine (proj1 (init_failure_leaves_disk_untouched host ["enode://a"] "/tmp/eth"
                   Sample.world0
                   (OSError "Incompatible Ethereum client 'geth' version: 1.6") _ _)
            "/tmp/eth").
  - reflexivity.
  - right; right; left; exists "1.6"; reflexivity.
Defined.

(** X2.  Past the version gate, construction raises the IOError
    "<datadir> does not exist or is not a dir" exactly when the path exists
    and is not a directory.  [os.makedirs] is called, once, exactly when
    nothing is at the path, and not at all for a path that is there;
    whenever construction returns, the path is a directory. *)
Theorem init_ioerror_iff_not_a_directory host nodes datadir prog ver w :
  find_program host "geth" = Some prog -> prog <> "" ->
  reported_version host prog = Some ver ->
  out_of_range (Version.version ver) = false ->
  let r := __init__ host nodes datadir w in
  (fst r = Raise (IOError (datadir ++ " does not exist or is not a dir"))
   <-> fs w datadir = Some RegularFile)
  /\ (fs w datadir = None ->
      count_events is_makedirs (trace (snd r)) = S (count_events is_makedirs (trace w)))
  /\ (fs w datadir <> None ->
      count_events is_makedirs (trace (snd r)) = count_events is_makedirs (trace w))
  /\ (forall o, fst r = Ret o -> fs (snd r) datadir = Some Directory).
Proof.
  intros Hfind Hne Hrep Hoor; cbv zeta.
  pose proof (init_outcome host nodes datadir prog ver w Hfind Hne Hrep) as Hout.
  cbv zeta in Hout; rewrite Hoor in Hout.
  destruct (fs w datadir) as [[|]|] eqn:Hfs.
  - destruct Hout as (Hfst & Htr & Hdir & _).
    split; [|split; [discriminate|split]].
    + rewrite Hfst; split; [|discriminate].
      destruct (exit_status host _ =? 0)%Z; discriminate.
    + intros _; rewrite Htr, !count_events_app.
      destruct nodes; destruct (exit_status host _ =? 0)%Z; cbn; lia.
    + intros o _; exact Hdir.
  - rewrite Hout; cbn [fst snd trace with_trace].
    split; [tauto|]; split; [discriminate|]; split; [|discriminate].
    intros _; rewrite !count_events_app; cbn; lia.
  - destruct Hout as (Hfst & Htr & Hdir & _).
    split; [|split; [|split]].
    + rewrite Hfst; split; [|discriminate].
      destruct (exit_status host _ =? 0)%Z; discriminate.
    + intros _; rewrite Htr, !count_events_app.
      destruct nodes; destruct (exit_status host _ =? 0)%Z; cbn; lia.
    + intros Hn; now elim Hn.
    + intros o _; exact Hdir.
Qed.

Lemma init_ioerror_iff_not_a_directory_witness :
  let host := Sample.host (Sample.banner "1.5.0") 0 0 in
  let w := with_fs (fun q => if q =? "/tmp/eth" then Some RegularFile else None)
                   Sample.world0 in
  fst (__init__ host [] "/tmp/eth" w)
  = Raise (IOError "/tmp/eth does not exist or is not a dir").
Proof.
  intros host w.
  refine (proj2 (proj1 (init_ioerror_iff_not_a_directory host [] "/tmp/eth" "/usr/bin/geth"
                          {| Version.version := (1, 5, 0)%N; Version.prerelease := None |}
                          w _ _ _ _)) _).
  - reflexivity.
  - discriminate.
  - reflexivity.
  - reflexivity.
  - reflexivity.
Defined.

(** X3.  Past the gate and on a usable path, the static-nodes file
    [datadir/static-nodes.json] is written exactly when the list of nodes is
    not empty; with an empty list whatever was at that path stays there. *)
Theorem init_static_nodes host nodes datadir prog ver w :
  find_program host "geth" = Some prog -> prog <> "" ->
  reported_version host prog = Some ver ->
  out_of_range (Version.version ver) = false ->
  fs w datadir <> Some RegularFile ->
  let r := __init__ host nodes datadir w in
  let nodes_file := Text.path_join datadir "static-nodes.json" in
  (nodes <> [] ->
   fs (snd r) nodes_file = Some RegularFile
   /\ exists t1 t2, trace (snd r) = (trace w ++ t1 ++ Save nodes nodes_file :: t2)%list
                    /\ count_events is_save (trace (snd r))
                       = S (count_events is_save (trace w)))
  /\ (nodes = [] ->
      fs (snd r) nodes_file = fs w nodes_file
      /\ count_events is_save (trace (snd r)) = count_events is_save (trace w)).
Proof.
  intros Hfind Hne Hrep Hoor Husable; cbv zeta.
  pose proof (init_outcome host nodes datadir prog ver w Hfind Hne Hrep) as Hout.
  destruct (init_outcome_fs host nodes datadir prog ver w Hfind Hne Hrep Hoor Husable)
    as (Hfsq & _).
  cbv zeta in Hout, Hfsq; rewrite Hoor in Hout.
  assert (Htr : trace (snd (__init__ host nodes datadir w)) =
                (trace w
                   ++ [Communicate [prog; "version"];
                       Log_info ("geth version " ++ Version.str ver)]
                   ++ (if truthy_obj (fs w datadir) then [] else [Makedirs datadir])
                   ++ (if truthy_list nodes
                       then [Save nodes (Text.path_join datadir "static-nodes.json")]
                       else [])
                   ++ [Check_call (init_args host prog datadir)]
                   ++ (if (exit_status host (init_args host prog datadir) =? 0)%Z
                       then [Log_info ("geth init: "
                                       ++ Text.join " " (init_args host prog datadir))]
                       else []))%list).
  { destruct (fs w datadir) as [[|]|]; [ | now elim Husable | ];
      destruct Hout as (_ & Htr & _); exact Htr. }
  clear Hout; split.
  - intros Hnodes; destruct nodes as [|n0 nodes0]; [now elim Hnodes|].
    split.
    + rewrite Hfsq; cbn [truthy_list andb]; rewrite String.eqb_refl; reflexivity.
    + cbn [truthy_list] in Htr.
      exists ([Communicate [prog; "version"];
               Log_info ("geth version " ++ Version.str ver)]
                ++ (if truthy_obj (fs w datadir) then [] else [Makedirs datadir]))%list.
      eexists; split.
      * rewrite Htr, <- !app_assoc; reflexivity.
      * rewrite Htr, !count_events_app.
        destruct (truthy_obj (fs w datadir));
          destruct (exit_status host _ =? 0)%Z; cbn; lia.
  - intros ->; split.
    + rewrite Hfsq; cbn [truthy_list andb].
      destruct (String.eqb_spec (Text.path_join datadir "static-nodes.json") datadir)
        as [E|_]; [symmetry in E; now apply TextFacts.static_nodes_not_dir in E|].
      rewrite andb_false_r; reflexivity.
    + rewrite Htr, !count_events_app; cbn [truthy_list].
      destruct (truthy_obj (fs w datadir));
        destruct (exit_status host _ =? 0)%Z; cbn; lia.
Qed.

Lemma init_static_nodes_witness :
  let host := Sample.host (Sample.banner "1.5.0") 0 0 in
  fs (snd (__init__ host ["enode://a"] "/tmp/eth" Sample.world0))
     "/tmp/eth/static-nodes.json" = Some RegularFile.
Proof.
  intros host.
  refine (proj1 (proj1 (init_static_nodes host ["enode://a"] "/tmp/eth" "/usr/bin/geth"
                          {| Version.version := (1, 5, 0)%N; Version.prerelease := None |}
                          Sample.world0 _ _ _ _ _) _)).
  - reflexivity.
  - discriminate.
  - reflexivity.
  - reflexivity.
  - discriminate.
  - discriminate.
Defined.

(** ** Events of the methods *)

(** What the readiness loop adds to the trace: a sleep per round, and a
    listing per round when there is an RPC port to look for; the time it
    returns is the number of periods slept. *)
Lemma poll_trace host fuel :
  forall wt o w,
    let r := poll host fuel wt (o, w) in
    exists t,
      trace (snd (snd r)) = (trace w ++ t)%list
      /\ (forall f, quiet f -> count_events f t = 0)
      /\ (truthy_int (rpcport o) = false -> count_events is_connections t = 0)
      /\ count_events is_sleep t <= fuel
      /\ (forall n, fst r = Ret n ->
            n = wt + count_events is_sleep t
            /\ 1 <= count_events is_sleep t
            /\ (truthy_int (rpcport o) = true ->
                count_events is_connections t = count_events is_sleep t)).
Proof.
  induction fuel as [|fuel IH]; intros wt o w; cbv zeta.
  - exists []; cbn [poll polling fst snd]; rewrite app_nil_r.
    split; [reflexivity|]; split; [intros; reflexivity|]; split; [intros; reflexivity|].
    split; [cbn; lia|]; intros n Hn; discriminate.
  - destruct (truthy_int (rpcport o)) eqn:Ht.
    + destruct (rpcport o) as [p|] eqn:Hrp; [|discriminate].
      assert (Hp : p <> 0%Z) by (intros ->; discriminate).
      destruct (__ps o) as [ps|] eqn:Hps.
      * rewrite (poll_round _ _ _ _ _ ps p) by assumption.
        destruct (seen host ps p w 0).
        -- exists [Sleep; Connections (pid ps)].
           cbn [fst snd polled trace]; rewrite <- app_assoc.
           split; [reflexivity|]; split; [|split; [discriminate|split; [cbn; lia|]]].
           ++ intros f (Hs & Hc & _); unfold count_events; cbn [filter].
              rewrite Hs, Hc; reflexivity.
           ++ intros n Hn; inversion Hn; subst; cbn.
              split; [lia|]; split; [lia | reflexivity].
        -- destruct (IH (S wt) o (polled ps w)) as (t & Ht' & Hq & _ & Hle & Hret).
           exists (Sleep :: Connections (pid ps) :: t).
           split; [rewrite Ht'; cbn [polled trace]; rewrite <- !app_assoc; reflexivity|].
           split; [|split; [discriminate|split]].
           ++ intros f Hf; pose proof (Hq f Hf) as H0; destruct Hf as (Hs & Hc & _).
              unfold count_events in *; cbn [filter]; rewrite Hs, Hc; exact H0.
           ++ unfold count_events in *; cbn [filter is_sleep List.length]; lia.
           ++ intros n Hn; destruct (Hret n Hn) as (Hn1 & _ & Hn2).
              rewrite Hrp in Hn2; specialize (Hn2 Ht).
              unfold count_events in *; cbn [filter is_sleep is_connections List.length].
              split; [lia|]; split; [lia | intros _; lia].
      * exists [Sleep].
        cbn [poll]; unfold bind, world, emit, self; cbn [fst snd].
        rewrite Hrp, Hps; cbn [truthy_int].
        apply Z.eqb_neq in Hp; rewrite Hp; cbn [negb raise fst snd trace with_trace].
        split; [reflexivity|]; split; [|split; [discriminate|split; [cbn; lia|]]].
        -- intros f (Hs & _); unfold count_events; cbn [filter]; rewrite Hs; reflexivity.
        -- intros n Hn; discriminate.
    + rewrite poll_without_rpcport by assumption.
      exists [Sleep]; cbn [fst snd trace with_trace].
      split; [reflexivity|]; split; [|split; [reflexivity|split; [cbn; lia|]]].
      * intros f (Hs & _); unfold count_events; cbn [filter]; rewrite Hs; reflexivity.
      * intros n Hn; inversion Hn; subst; cbn.
        split; [lia|]; split; [lia | discriminate].
Qed.

(** The trace of a [start] that launches: the launch, the exit hook, the
    rounds of the loop and, when it returns, the log line. *)
Lemma start_launches_trace host fuel rpc mining nodekey p o w :
  is_running o = false ->
  let r := start host fuel rpc mining nodekey p (o, w) in
  let child := launched_process host rpc mining nodekey p o w in
  exists t,
    (forall f, quiet f -> count_events f t = 0)
    /\ ((rpc = false /\ rpcport o = None) -> count_events is_connections t = 0)
    /\ count_events is_sleep t <= fuel
    /\ (fst r = Ret tt -> 1 <= count_events is_sleep t)
    /\ ((fst r <> Ret tt /\ trace (snd (snd r)) =
                            (trace w ++ Launch child :: Atexit_register :: t)%list)
        \/ (fst r = Ret tt
            /\ trace (snd (snd r)) =
                 (trace w ++ Launch child :: Atexit_register :: t
                    ++ [Log_started (count_events is_sleep t)
                          (Text.join " " (cmdline child))])%list
            /\ (rpc = true -> count_events is_connections t = count_events is_sleep t))).
Proof.
  intros H; cbv zeta; rewrite start_launches by assumption.
  destruct (poll_trace host fuel 0
              (fst (launched host rpc mining nodekey p o w))
              (snd (launched host rpc mining nodekey p o w)))
    as (t & Ht & Hq & Hnone & Hle & Hret).
  cbv zeta in Ht, Hret; rewrite <- surjective_pairing in Ht, Hret.
  exists t; split; [exact Hq|]; split; [|split; [exact Hle|split]].
  - intros (-> & Hrp); apply Hnone; cbn [launched fst rpcport]; rewrite Hrp; reflexivity.
  - destruct (poll host fuel 0 _) as [[n| |] s]; cbn [fst snd] in *; try discriminate.
    intros _; apply (Hret n eq_refl).
  - destruct (poll host fuel 0 _) as [[n| |] s]; cbn [fst snd] in *.
    + right; destruct (Hret n eq_refl) as (Hn & _ & Hconn).
      split; [reflexivity|]; split.
      * cbn [trace with_trace]; rewrite Ht; cbn [launched snd trace].
        rewrite Hn, <- !app_assoc; reflexivity.
      * intros ->; apply Hconn; reflexivity.
    + left; split; [discriminate|].
      rewrite Ht; cbn [launched snd trace]; rewrite <- !app_assoc; reflexivity.
    + left; split; [discriminate|].
      rewrite Ht; cbn [launched snd trace]; rewrite <- !app_assoc; reflexivity.
Qed.

(** X4.  The time a [start] logs in "Node started in ..." is the number of
    wait periods it slept, and with RPC it has listed the child's
    connections exactly once per period; without RPC it has not listed them
    at all. *)
Theorem start_wait_time_counts_sleeps host fuel (rpc mining : bool)
        (nodekey : option string) (explicit : option Z) o w :
  is_running o = false -> rpcport o = None ->
  let r := start host fuel rpc mining nodekey explicit (o, w) in
  fst r = Ret tt ->
  exists n t,
    trace (snd (snd r)) = (trace w ++ t ++ [Log_started n (Text.join " "
                             (launch_vector host rpc mining nodekey explicit o w))])%list
    /\ count_events is_sleep (trace (snd (snd r))) = count_events is_sleep (trace w) + n
    /\ count_events is_connections (trace (snd (snd r)))
       = count_events is_connections (trace w) + (if rpc then n else 0)
    /\ 1 <= n <= fuel.
Proof.
  intros Hrun Hnone; cbv zeta; intros Hret.
  destruct (start_launches_trace host fuel rpc mining nodekey explicit o w Hrun)
    as (t & Hq & Hnoconn & Hle & Hge & [(Hne & _) | (_ & Htr & Hconn)]);
    [now elim Hne|].
  cbv zeta in Htr, Hconn.
  exists (count_events is_sleep t).
  exists (Launch (launched_process host rpc mining nodekey explicit o w)
            :: Atexit_register :: t).
  split; [rewrite Htr; reflexivity|].
  split; [|split].
  - rewrite Htr, !count_events_app.
    change (Launch ?a :: Atexit_register :: ?l ++ ?m)%list
      with ([Launch a; Atexit_register] ++ l ++ m)%list.
    rewrite !count_events_app; cbn; lia.
  - rewrite Htr, !count_events_app.
    change (Launch ?a :: Atexit_register :: ?l ++ ?m)%list
      with ([Launch a; Atexit_register] ++ l ++ m)%list.
    rewrite !count_events_app.
    destruct rpc; [rewrite (Hconn eq_refl) | rewrite (Hnoconn (conj eq_refl Hnone))];
      cbn; lia.
  - split; [apply Hge; exact Hret | exact Hle].
Qed.

Lemma start_wait_time_counts_sleeps_witness :
  let host := Sample.host (Sample.banner "1.5.0") 0 2 in
  exists n t,
    trace (snd (snd (start host 5 true false None None (Sample.node0, Sample.world0))))
    = (t ++ [Log_started n (Text.join " "
               (launch_vector host true false None None Sample.node0 Sample.world0))])%list
    /\ 1 <= n <= 5.
Proof.
  intros host.
  destruct (start_wait_time_counts_sleeps host 5 true false None None
              Sample.node0 Sample.world0 eq_refl eq_refl eq_refl)
    as (n & t & Htr & _ & _ & Hn).
  exists n, t; split; [exact Htr | exact Hn].
Defined.

(** ** Sequences of calls: processes, ports and keys *)

Lemma stop_events_counts host ps :
  count_events is_terminate (stop_events host ps) = 1
  /\ count_events is_launch (stop_events host ps) = 0
  /\ count_events is_atexit (stop_events host ps) = 0.
Proof.
  unfold stop_events.
  destruct (terminate_gone host (pid ps)); [|destruct (wait_gone host (pid ps))];
    repeat split.
Qed.

Lemma quiet_launch : quiet is_launch.
Proof. repeat split. Qed.
Lemma quiet_atexit : quiet is_atexit.
Proof. repeat split. Qed.
Lemma quiet_terminate : quiet is_terminate.
Proof. repeat split. Qed.

(** What one call adds to the counts of launches, exit hooks and
    terminations. *)
Lemma run_call_accounting host fuel c o w :
  let r := run_call host fuel c (o, w) in
  let o' := fst (snd r) in
  let w' := snd (snd r) in
  let alive (x : NodeProcess) := if is_running x then 1 else 0 in
  count_events is_launch (trace w') + count_events is_terminate (trace w) + alive o
  = count_events is_launch (trace w) + count_events is_terminate (trace w') + alive o'
  /\ count_events is_atexit (trace w') + count_events is_launch (trace w)
     = count_events is_atexit (trace w) + count_events is_launch (trace w').
Proof.
  cbv zeta; destruct c as [rpc mining nodekey p|]; cbn [run_call].
  - destruct (is_running o) eqn:Hrun.
    + rewrite start_running by assumption; cbn [fst snd]; rewrite Hrun; lia.
    + rewrite (start_launches_self host fuel rpc mining nodekey p o w Hrun).
      cbn [launched fst is_running __ps truthy_obj].
      destruct (start_launches_trace host fuel rpc mining nodekey p o w Hrun)
        as (t & Hq & _ & _ & _ & [(_ & Htr) | (_ & Htr & _)]);
        cbv zeta in Htr; rewrite Htr;
        change (Launch ?a :: Atexit_register :: ?l)%list
          with ([Launch a; Atexit_register] ++ l)%list;
        rewrite !count_events_app;
        rewrite (Hq _ quiet_launch), (Hq _ quiet_atexit), (Hq _ quiet_terminate);
        cbn; lia.
  - unfold is_running; destruct (__ps o) as [ps|] eqn:Hps.
    + rewrite (stop_running host o w ps Hps); cbn [fst snd set_ps set_rpcport __ps
                                                    truthy_obj trace with_trace].
      rewrite !count_events_app.
      destruct (stop_events_counts host ps) as (H1 & H2 & H3).
      rewrite H1, H2, H3; lia.
    + rewrite (stop_not_running host o w Hps); cbn [fst snd]; rewrite Hps; cbn; lia.
Qed.

(** X5.  Along any sequence of calls that returns, the processes launched
    and not yet asked to terminate are exactly the one the supervisor holds:
    launches minus terminations is 1 when [is_running] and 0 otherwise, so
    no child is ever left behind by a returning call and none is terminated
    twice; and one exit hook is registered per launch, so hooks accumulate
    over restarts. *)
Theorem process_accounting host fuel cs :
  forall o w o' w',
    run_calls host fuel cs (o, w) = (Ret tt, (o', w')) ->
    let alive (x : NodeProcess) := if is_running x then 1 else 0 in
    count_events is_launch (trace w') + count_events is_terminate (trace w) + alive o
    = count_events is_launch (trace w) + count_events is_terminate (trace w') + alive o'
    /\ count_events is_atexit (trace w') + count_events is_launch (trace w)
       = count_events is_atexit (trace w) + count_events is_launch (trace w').
Proof.
  induction cs as [|c cs IH]; intros o w o' w' Hrun; cbv zeta.
  - cbn in Hrun; inversion Hrun; subst; lia.
  - cbn [run_calls] in Hrun; unfold bind in Hrun.
    pose proof (run_call_accounting host fuel c o w) as Hstep; cbv zeta in Hstep.
    destruct (run_call host fuel c (o, w)) as [[[]| |] [o1 w1]]; try discriminate.
    cbn [fst snd] in Hstep.
    specialize (IH o1 w1 o' w' Hrun); cbv zeta in IH.
    lia.
Qed.

Lemma process_accounting_witness :
  let host := Sample.host (Sample.banner "1.5.0") 0 0 in
  let cs := [Start true false None None; Stop; Start false false None None;
             Start true false None None] in
  let s := snd (run_calls host 3 cs (Sample.node0, Sample.world0)) in
  count_events is_launch (trace (snd s)) = count_events is_terminate (trace (snd s)) + 1
  /\ count_events is_atexit (trace (snd s)) = count_events is_launch (trace (snd s)).
Proof.
  intros host cs s.
  assert (Hrun : run_calls host 3 cs (Sample.node0, Sample.world0)
                 = (Ret tt, (fst s, snd s))) by (vm_compute; reflexivity).
  pose proof (process_accounting host 3 cs _ _ _ _ Hrun) as H.
  cbv beta zeta in H.
  replace (is_running (fst s)) with true in H by (vm_compute; reflexivity).
  change (is_running Sample.node0) with false in H.
  change (trace Sample.world0) with (@nil event) in H.
  change (count_events is_launch []) with 0 in H.
  change (count_events is_terminate []) with 0 in H.
  change (count_events is_atexit []) with 0 in H.
  cbv beta iota in H; clearbody s; lia.
Defined.

(** One call keeps "running implies a peer port", and sets the peer port
    when it is a [Start]. *)
Lemma run_call_port host fuel c o w o' w' :
  (is_running o = true -> port o <> None) ->
  run_call host fuel c (o, w) = (Ret tt, (o', w')) ->
  (is_running o' = true -> port o' <> None)
  /\ (port o' <> None <-> port o <> None \/ is_start c = true).
Proof.
  intros Hinv Hcall; destruct c as [rpc mining nodekey p|]; cbn [run_call is_start] in *.
  - destruct (is_running o) eqn:Hrun.
    + rewrite start_running in Hcall by assumption; inversion Hcall; subst.
      split; [intros _; now apply Hinv|].
      split; [auto | intros _; now apply Hinv].
    + pose proof (start_launches_self host fuel rpc mining nodekey p o w Hrun) as Hself.
      rewrite Hcall in Hself; cbn [fst snd] in Hself; subst o'.
      cbn [launched fst port]; split; [discriminate|].
      split; [auto | discriminate].
  - assert (Hfr : port o' = port o /\ is_running o' = false).
    { unfold is_running; destruct (__ps o) as [ps|] eqn:Hps.
      - rewrite (stop_running host o w ps Hps) in Hcall; inversion Hcall; subst; auto.
      - rewrite (stop_not_running host o w Hps) in Hcall; inversion Hcall; subst.
        rewrite Hps; auto. }
    destruct Hfr as (Hp & Hr); rewrite Hp, Hr.
    split; [discriminate|]; split; [auto|].
    intros [H|H]; [exact H | discriminate].
Qed.

(** X6.  On a fresh supervisor the peer port is set exactly when [start]
    has been called at least once; [stop] never clears it. *)
Theorem peer_port_set_iff_started host fuel cs :
  forall o w o' w',
    __ps o = None -> port o = None ->
    run_calls host fuel cs (o, w) = (Ret tt, (o', w')) ->
    (port o' <> None <-> existsb is_start cs = true).
Proof.
  assert (Hgen : forall cs o w o' w',
             (is_running o = true -> port o <> None) ->
             run_calls host fuel cs (o, w) = (Ret tt, (o', w')) ->
             (port o' <> None <-> port o <> None \/ existsb is_start cs = true)).
  { clear cs; induction cs as [|c cs IH]; intros o w o' w' Hinv Hrun.
    - cbn in Hrun; inversion Hrun; subst; cbn.
      split; [auto | intros [H|H]; [exact H | discriminate]].
    - cbn [run_calls] in Hrun; unfold bind in Hrun.
      destruct (run_call host fuel c (o, w)) as [[[]| |] [o1 w1]] eqn:Hc; try discriminate.
      destruct (run_call_port host fuel c o w o1 w1 Hinv Hc) as (Hinv1 & Hp1).
      rewrite (IH o1 w1 o' w' Hinv1 Hrun), Hp1; cbn [existsb].
      rewrite orb_true_iff; tauto. }
  intros o w o' w' Hps Hport Hrun.
  rewrite (Hgen cs o w o' w'); [|unfold is_running; rewrite Hps; discriminate|exact Hrun].
  rewrite Hport; split; [intros [H|H]; [now elim H | exact H] | auto].
Qed.

Lemma peer_port_set_iff_started_witness :
  let host := Sample.host (Sample.banner "1.5.0") 0 0 in
  let cs := [Stop; Start false false None None; Stop] in
  port (fst (snd (run_calls host 3 cs (Sample.node0, Sample.world0)))) <> None.
Proof.
  intros host cs.
  refine (proj2 (peer_port_set_iff_started host 3 cs Sample.node0 Sample.world0
                   (fst (snd (run_calls host 3 cs (Sample.node0, Sample.world0))))
                   (snd (snd (run_calls host 3 cs (Sample.node0, Sample.world0))))
                   eq_refl eq_refl _) eq_refl).
  vm_compute; reflexivity.
Defined.

Lemma run_call_pubkey host fuel c o w o' w' :
  keyless c = true ->
  run_call host fuel c (o, w) = (Ret tt, (o', w')) ->
  pubkey o' = pubkey o.
Proof.
  intros Hk Hcall; destruct c as [rpc mining nodekey p|]; cbn [run_call keyless] in *.
  - destruct (is_running o) eqn:Hrun.
    + rewrite start_running in Hcall by assumption; inversion Hcall; reflexivity.
    + pose proof (start_launches_self host fuel rpc mining nodekey p o w Hrun) as Hself.
      rewrite Hcall in Hself; cbn [fst snd] in Hself; subst o'.
      cbn [launched fst pubkey].
      apply negb_true_iff in Hk; destruct nodekey; [rewrite Hk|]; reflexivity.
  - destruct (__ps o) as [ps|] eqn:Hps.
    + rewrite (stop_running host o w ps Hps) in Hcall; inversion Hcall; reflexivity.
    + rewrite (stop_not_running host o w Hps) in Hcall; inversion Hcall; reflexivity.
Qed.

(** X7.  The stored public key is only ever written by a [start] that
    launches with a non-empty node key: any sequence of [stop]s and of
    [start]s without key leaves it as it was, so after a restart without key
    the object still shows the public key of an earlier run. *)
Theorem pubkey_survives_keyless_calls host fuel cs :
  forall o w o' w',
    forallb keyless cs = true ->
    run_calls host fuel cs (o, w) = (Ret tt, (o', w')) ->
    pubkey o' = pubkey o.
Proof.
  induction cs as [|c cs IH]; intros o w o' w' Hk Hrun.
  - cbn in Hrun; inversion Hrun; reflexivity.
  - cbn [forallb] in Hk; apply andb_true_iff in Hk as (Hc & Hcs).
    cbn [run_calls] in Hrun; unfold bind in Hrun.
    destruct (run_call host fuel c (o, w)) as [[[]| |] [o1 w1]] eqn:Hcall; try discriminate.
    rewrite (IH o1 w1 o' w' Hcs Hrun).
    exact (run_call_pubkey host fuel c o w o1 w1 Hc Hcall).
Qed.

Lemma pubkey_survives_keyless_calls_witness :
  let host := Sample.host (Sample.banner "1.5.0") 0 0 in
  let s1 := snd (start host 3 false false (Some "k") None (Sample.node0, Sample.world0)) in
  let cs := [Stop; Start false false None None] in
  pubkey (fst (snd (run_calls host 3 cs s1))) = Some "pub:k".
Proof.
  intros host s1 cs.
  refine (pubkey_survives_keyless_calls host 3 cs (fst s1) (snd s1)
            (fst (snd (run_calls host 3 cs s1))) (snd (snd (run_calls host 3 cs s1)))
            eq_refl _).
  vm_compute; reflexivity.
Defined.

(** A [stop] launches nothing; when it returns no process is held, and when
    it raises the object is as it was, with its process. *)
Lemma stop_under_cases psutil o w :
  let r := stop_under psutil (o, w) in
  spawned (snd (snd r)) = spawned w
  /\ (fst r = Ret tt -> is_running (fst (snd r)) = false)
  /\ (forall e, fst r = Raise e -> fst (snd r) = o /\ is_running o = true).
Proof.
  cbv zeta.
  destruct (__ps o) as [ps|] eqn:Hps.
  - rewrite (stop_under_running psutil o w ps Hps); cbv zeta.
    destruct (terminate_raises psutil (pid ps)) as [e1|];
      [destruct e1
      |destruct (wait_raises psutil (pid ps)) as [e2|]; [destruct e2|]];
      cbn [fst snd]; (split; [reflexivity|]);
      (split; [first [discriminate|reflexivity]|]);
      first [discriminate
            |intros e _; split; [reflexivity|unfold is_running; rewrite Hps; reflexivity]].
  - rewrite (stop_under_not_running psutil o w Hps); cbn [fst snd].
    split; [reflexivity|]; split; [|discriminate].
    intros _; unfold is_running; rewrite Hps; reflexivity.
Qed.

(** X8.  After a [stop] that returned, whatever the state before and
    whatever psutil answered, a [start] launches a new process: the
    supervisor can be restarted.  After a [stop] that raised, the handle is
    still set and a [start] does nothing at all. *)
Theorem start_after_stop_launches psutil host fuel (rpc mining : bool)
        (nodekey : option string) (explicit : option Z) o w :
  let r1 := stop_under psutil (o, w) in
  let r := start host fuel rpc mining nodekey explicit (snd r1) in
  (fst r1 = Ret tt ->
     is_running (fst (snd r1)) = false
     /\ is_running (fst (snd r)) = true
     /\ count_events is_launch (trace (snd (snd r)))
        = S (count_events is_launch (trace (snd (snd r1))))
     /\ exists ps, __ps (fst (snd r)) = Some ps /\ pid ps = spawned w)
  /\ (forall e, fst r1 = Raise e ->
        is_running (fst (snd r1)) = true /\ r = (Ret tt, snd r1)).
Proof.
  cbv zeta.
  destruct (stop_under_cases psutil o w) as (Hsp & Hret & Hraise); cbv zeta in *.
  destruct (stop_under psutil (o, w)) as [r1 [o1 w1]]; cbn [fst snd] in *.
  split.
  - intros Hr; specialize (Hret Hr).
    split; [exact Hret|].
    rewrite (start_launches_self host fuel rpc mining nodekey explicit o1 w1 Hret).
    split; [reflexivity|]; split.
    + destruct (start_launches_world host fuel rpc mining nodekey explicit o1 w1 Hret)
        as ((t & Ht & Hl) & _).
      cbv zeta in Ht; unfold count_events; rewrite Ht, filter_launch_app.
      cbn [filter is_launch]; rewrite Hl, length_app; cbn [List.length]; lia.
    + eexists; split; [reflexivity|]; cbn [launched_process pid]; exact Hsp.
  - intros e He; destruct (Hraise e He) as (Ho & Hrun); subst o1.
    split; [exact Hrun|].
    apply start_running; exact Hrun.
Qed.

Lemma start_after_stop_launches_witness :
  let host := Sample.host (Sample.banner "1.5.0") 0 0 in
  let s := snd (start host 3 true false None None (Sample.node0, Sample.world0)) in
  let r1 := stop_under Sample.denied (fst s, snd s) in
  is_running (fst (snd r1)) = true
  /\ start host 3 false false None None (snd r1) = (Ret tt, snd r1).
Proof.
  intros host s r1.
  exact (proj2 (start_after_stop_launches Sample.denied host 3 false false None None
                  (fst s) (snd s))
           (AccessDenied 0) eq_refl).
Defined.



(** X10.  An explicit port other than 0 is taken as it is, without any
    check of its range: it becomes the peer port and is printed after
    "--port", and no port is requested from the allocator for it, so with
    RPC the RPC port is the allocator's next answer. *)
Theorem explicit_port_is_used_verbatim host fuel (rpc mining : bool)
        (nodekey : option string) (p : Z) o w :
  is_running o = false -> p <> 0%Z ->
  let s1 := snd (start host fuel rpc mining nodekey (Some p) (o, w)) in
  port (fst s1) = Some p
  /\ (exists ps, __ps (fst s1) = Some ps
                 /\ nth_error (cmdline ps) 5 = Some "--port"
                 /\ nth_error (cmdline ps) 6 = Some (Text.str_Z p))
  /\ allocated (snd s1) = (if rpc then 1 else 0) + allocated w
  /\ (rpc = true -> rpcport (fst s1) = Some (Z.pos (free_port host (allocated w)))).
Proof.
  intros Hrun Hp; cbv zeta.
  rewrite (start_launches_self host fuel rpc mining nodekey (Some p) o w Hrun).
  destruct (start_launches_world host fuel rpc mining nodekey (Some p) o w Hrun)
    as (_ & Ha & _).
  cbv zeta in Ha; rewrite Ha.
  assert (Ht : truthy_int (Some p) = true)
    by (cbn; apply Z.eqb_neq in Hp; rewrite Hp; reflexivity).
  cbn [launched fst port rpcport __ps]; unfold peer_port, rpc_port; rewrite Ht.
  split; [reflexivity|]; split; [|split; [reflexivity|]].
  - eexists; split; [reflexivity|].
    cbn [launched_process cmdline launch_vector app nth_error].
    unfold peer_port; rewrite Ht; split; reflexivity.
  - intros ->; reflexivity.
Qed.

Lemma explicit_port_is_used_verbatim_witness :
  let host := Sample.host (Sample.banner "1.5.0") 0 0 in
  port (fst (snd (start host 1 false false None (Some (-5)%Z)
                    (Sample.node0, Sample.world0)))) = Some (-5)%Z.
Proof.
  intros host.
  refine (proj1 (explicit_port_is_used_verbatim host 1 false false None (-5)%Z
                   Sample.node0 Sample.world0 eq_refl _)).
  discriminate.
Defined.

(** X11.  An empty node key is no node key: [start] with the key [""] does
    exactly what it does with [None] (no "--nodekeyhex", no public key
    derived). *)
Theorem empty_nodekey_is_absent host fuel (rpc mining : bool) (explicit : option Z) o w :
  start host fuel rpc mining (Some "") explicit (o, w)
  = start host fuel rpc mining None explicit (o, w).
Proof.
  destruct (is_running o) eqn:Hrun.
  - rewrite !start_running by assumption; reflexivity.
  - rewrite !start_launches by assumption; reflexivity.
Qed.

(** ** [FullNode] *)

(** X12.  [FullNode(datadir, run=True)], when the construction of the
    underlying [NodeProcess] succeeds, launches the node at once: peer port
    30900, no RPC, the faucet's key as node key and mining on.  It returns
    after a single wait period without ever looking at the child's
    connections (so it cannot hang), requests no port from the allocator,
    and hands back a running object with the faucet's public key. *)
Theorem FullNode_runs_the_faucet_node host get_local_datadir fuel datadir w :
  let chosen :=
    match datadir with
    | Some d => if truthy_str datadir then d
                else Text.path_join (get_local_datadir "ethereum") "full_node"
    | None => Text.path_join (get_local_datadir "ethereum") "full_node"
    end in
  forall o w1,
    __init__ host [] chosen w = (Ret o, w1) ->
    let child :=
      {| pid := spawned w1;
         cmdline := [ __prog o; "--datadir"; chosen; "--networkid"; "9";
                      "--port"; "30900";
                      "--nodiscover"; "--ipcdisable"; "--gasprice"; "0";
                      "--verbosity"; "3";
                      "--nodekeyhex"; Text.encode_hex (Text.pad32 "Golem Faucet");
                      "--etherbase";
                      Text.encode_hex (privtoaddr host (Text.pad32 "Golem Faucet"));
                      "js";
                      Text.path_join (module_dir host) "mine_pending_transactions.js" ] |} in
    let r := FullNode__init__ host get_local_datadir (S fuel) datadir true w in
    fst r = Ret {| port := Some 30900%Z; __prog := __prog o; datadir := chosen;
                   __ps := Some child; rpcport := None;
                   pubkey := Some (privtopub host (Text.pad32 "Golem Faucet")) |}
    /\ trace (snd r) = (trace w1 ++ [Launch child; Atexit_register; Sleep;
                                     Log_started 1 (Text.join " " (cmdline child))])%list
    /\ allocated (snd r) = allocated w1.
Proof.
  intros chosen o w1 Hinit; cbv zeta.
  assert (Hret : fst (__init__ host [] chosen w) = Ret o) by (rewrite Hinit; reflexivity).
  destruct (init_ret_located _ _ _ _ _ Hret) as (prog & ver & _ & _ & _ & _ & _ & _ & Ho).
  assert (Hrun : is_running o = false) by (rewrite Ho; reflexivity).
  remember (FullNode__init__ host get_local_datadir (S fuel) datadir true w) as r eqn:Hr.
  unfold FullNode__init__ in Hr; fold chosen in Hr.
  unfold bind at 1 in Hr; rewrite Hinit in Hr.
  rewrite Hrun in Hr; cbn [andb negb] in Hr.
  unfold bind, call_on in Hr.
  rewrite start_launches in Hr by assumption.
  unfold launched in Hr.
  rewrite poll_without_rpcport in Hr by (rewrite Ho; reflexivity).
  rewrite Ho in Hr; cbn [fst snd ret] in Hr; unfold PRIVKEY in Hr.
  subst r; rewrite Ho; cbn [fst snd __prog].
  split; [reflexivity|]; split; [|reflexivity].
  cbn [trace with_trace]; rewrite <- !app_assoc; reflexivity.
Qed.

Lemma FullNode_runs_the_faucet_node_witness :
  let host := Sample.host (Sample.banner "1.5.0") 0 0 in
  exists o, fst (FullNode__init__ host (fun d => "/home/golem/" ++ d) 1 None true
                   Sample.world0) = Ret o
            /\ port o = Some 30900%Z /\ datadir o = "/home/golem/ethereum/full_node".
Proof.
  intros host.
  eexists; split.
  - refine (proj1 (FullNode_runs_the_faucet_node host (fun d => "/home/golem/" ++ d) 0 None
                     Sample.world0 _ _ _)).
    vm_compute; reflexivity.
  - split; reflexivity.
Defined.

(** X13.  [FullNode] adds nothing to a failed construction: the exception
    of [NodeProcess.__init__] comes out unchanged and no process is
    launched.  With [run] false it is [NodeProcess.__init__] with no static
    nodes, and an empty [datadir] is replaced by the default like [None]. *)
Theorem FullNode_without_running host get_local_datadir fuel datadir (run : bool) w :
  let chosen :=
    match datadir with
    | Some d => if truthy_str datadir then d
                else Text.path_join (get_local_datadir "ethereum") "full_node"
    | None => Text.path_join (get_local_datadir "ethereum") "full_node"
    end in
  let r := FullNode__init__ host get_local_datadir fuel datadir run w in
  (forall e w1, __init__ host [] chosen w = (Raise e, w1) ->
                r = (Raise e, w1)
                /\ count_events is_launch (trace w1) = count_events is_launch (trace w))
  /\ (run = false -> r = __init__ host [] chosen w)
  /\ (datadir = Some "" ->
      r = FullNode__init__ host get_local_datadir fuel None run w).
Proof.
  intros chosen; cbv zeta; unfold FullNode__init__; fold chosen.
  split; [|split].
  - intros e w1 Hinit; unfold bind at 1; rewrite Hinit; split; [reflexivity|].
    pose proof (init_never_launches host [] chosen w) as Hl; cbv zeta in Hl.
    rewrite Hinit in Hl; apply Hl.
  - intros ->; unfold bind.
    destruct (__init__ host [] chosen w) as [[o| |] w1]; reflexivity.
  - intros ->; reflexivity.
Qed.

Lemma FullNode_without_running_witness :
  let host := Sample.host (Sample.banner "1.6.0") 0 0 in
  fst (FullNode__init__ host (fun d => "/home/golem/" ++ d) 1 (Some "/tmp/eth") true
         Sample.world0)
  = Raise (OSError "Incompatible Ethereum client 'geth' version: 1.6").
Proof.
  intros host.
  pose proof (proj1 (FullNode_without_running host (fun d => "/home/golem/" ++ d) 1
                       (Some "/tmp/eth") true Sample.world0)) as H.
  cbv zeta in H.
  rewrite (proj1 (H (OSError "Incompatible Ethereum client 'geth' version: 1.6")
                    (with_trace [Communicate ["/usr/bin/geth"; "version"]] Sample.world0)
                    eq_refl)).
  reflexivity.
Defined.

(** ** The hexadecimal codec, [Faucet] and the Ropsten helper *)

Lemma hex_byte_round_trip (c : ascii) :
  Hex.hex_value (Text.hex_digit (N_of_ascii c / 16)) = Some (N_of_ascii c / 16)%N
  /\ Hex.hex_value (Text.hex_digit (N_of_ascii c mod 16)) = Some (N_of_ascii c mod 16)%N
  /\ ascii_of_N (16 * (N_of_ascii c / 16) + N_of_ascii c mod 16) = c
  /\ Hex.is_lower_hex (Text.hex_digit (N_of_ascii c / 16)) = true
  /\ Hex.is_lower_hex (Text.hex_digit (N_of_ascii c mod 16)) = true.
Proof.
  destruct c as [[] [] [] [] [] [] [] []]; vm_compute; repeat split.
Qed.

Lemma decode_encode_hex s : Hex.decode_hex (Text.encode_hex s) = Some s.
Proof.
  induction s as [|c s IH]; [reflexivity|].
  cbn [Text.encode_hex Hex.decode_hex].
  destruct (hex_byte_round_trip c) as (H1 & H2 & H3 & _).
  cbv zeta; rewrite H1, H2, IH, H3; reflexivity.
Qed.

Lemma encode_hex_shape s :
  String.length (Text.encode_hex s) = 2 * String.length s
  /\ Hex.all_lower_hex (Text.encode_hex s) = true.
Proof.
  induction s as [|c s (IHl & IHa)]; [split; reflexivity|].
  cbn [Text.encode_hex String.length Hex.all_lower_hex].
  destruct (hex_byte_round_trip c) as (_ & _ & _ & H4 & H5).
  cbv zeta; rewrite H4, H5, IHa, IHl; split; [lia | reflexivity].
Qed.

Lemma decode_hex_odd s :
  Nat.odd (String.length s) = true -> Hex.decode_hex s = None.
Proof.
  assert (H : forall n s, String.length s <= n ->
                          Nat.odd (String.length s) = true -> Hex.decode_hex s = None).
  { clear s; induction n as [|n IH]; intros s Hn Hodd.
    - destruct s; [discriminate | cbn in Hn; lia].
    - destruct s as [|a [|b r]]; [discriminate | reflexivity |].
      cbn [Hex.decode_hex].
      assert (Hr : Hex.decode_hex r = None).
      { apply IH; [cbn in Hn; lia|].
        cbn [String.length] in Hodd; rewrite Nat.odd_succ, Nat.even_succ in Hodd.
        exact Hodd. }
      rewrite Hr; destruct (Hex.hex_value a), (Hex.hex_value b); reflexivity. }
  apply (H (String.length s)); lia.
Qed.

(** X14.  [Faucet.gimme_money] sends one transaction from the faucet: gas
    price 1, gas 21000, no data, signed with the faucet key, to the
    normalized address, with the nonce the node reports for "0x" + the
    faucet address.  It returns the bytes of the hash the node answered in
    hexadecimal; the first two characters of the answer are dropped
    whatever they are, and an answer whose remainder has odd length makes
    [decode('hex')] raise. *)
Theorem gimme_money_returns_hash host normalize_address ethnode addr value :
  let r := Faucet.gimme_money host normalize_address ethnode addr value in
  fst r = {| Faucet.nonce :=
               Faucet.get_transaction_count ethnode
                 ("0x" ++ Text.encode_hex (privtoaddr host (Text.pad32 "Golem Faucet")));
             Faucet.gasprice := 1; Faucet.startgas := 21000;
             Faucet.to := normalize_address addr; Faucet.value := value;
             Faucet.data := "";
             Faucet.signed_with := Some (Text.pad32 "Golem Faucet") |}
  /\ (forall c1 c2 hash,
        Faucet.send ethnode (fst r) = String c1 (String c2 (Text.encode_hex hash)) ->
        snd r = Some hash)
  /\ (forall c1 c2 rest,
        Faucet.send ethnode (fst r) = String c1 (String c2 rest) ->
        Nat.odd (String.length rest) = true ->
        snd r = None).
Proof.
  cbv zeta; unfold Faucet.gimme_money; cbn [fst snd].
  split; [reflexivity|]; split.
  - intros c1 c2 hash Hsend; unfold Faucet.sign, PRIVKEY in *; cbn in Hsend |- *.
    rewrite Hsend; cbn [Hex.drop2]; apply decode_encode_hex.
  - intros c1 c2 rest Hsend Hodd; unfold Faucet.sign, PRIVKEY in *; cbn in Hsend |- *.
    rewrite Hsend; cbn [Hex.drop2]; now apply decode_hex_odd.
Qed.

Lemma gimme_money_returns_hash_witness :
  let node := {| Faucet.get_transaction_count := fun _ => 7%Z;
                 Faucet.send := fun _ => "0x" ++ Text.encode_hex "hash" |} in
  snd (Faucet.gimme_money (Sample.host "" 0 0) (fun a => a) node "addr" 5%Z) = Some "hash".
Proof.
  intros node.
  exact (proj1 (proj2 (gimme_money_returns_hash (Sample.host "" 0 0) (fun a => a) node
                         "addr" 5%Z)) "0"%char "x"%char "hash" eq_refl).
Defined.

(** X15.  The request of [ropsten_faucet_donate] is the faucet's donate URL
    followed by the normalized address in lower-case hexadecimal, two digits
    per byte: the address can be read back from the URL. *)
Theorem ropsten_request_encodes_address web addr :
  exists hex,
    Ropsten.request web addr = "http://faucet.ropsten.be:3001/donate/" ++ hex
    /\ String.length hex = 2 * String.length (Ropsten.normalize_address web addr)
    /\ Hex.all_lower_hex hex = true
    /\ Hex.decode_hex hex = Some (Ropsten.normalize_address web addr).
Proof.
  exists (Text.encode_hex (Ropsten.normalize_address web addr)).
  split; [reflexivity|].
  destruct (encode_hex_shape (Ropsten.normalize_address web addr)) as (Hl & Ha).
  split; [exact Hl|]; split; [exact Ha | apply decode_encode_hex].
Qed.

(** Every way through [ropsten_faucet_donate], one case at a time. *)
Ltac ropsten_cases web addr :=
  unfold Ropsten.ropsten_faucet_donate;
  destruct (Ropsten.status_code (Ropsten.get web (Ropsten.request web addr)) =? 200)%Z
    eqn:Hst; cbn [negb];
  [apply Z.eqb_eq in Hst;
   destruct (Ropsten.json (Ropsten.get web (Ropsten.request web addr))) as [d|] eqn:Hj;
   [destruct (d "paydate") as [p|] eqn:Hp;
    [destruct (Ropsten.is_zero p) eqn:Hz;
     [destruct (d "message") as [m|] eqn:Hm;
      [destruct (Ropsten.format web m) as [e|text] eqn:Hf|]
     |destruct (Ropsten.fromtimestamp web p) as [e|] eqn:Ht;
      [|destruct (d "amount") as [a|] eqn:Ha;
        [destruct (Ropsten.int web a) as [e|wei] eqn:Hi;
         [|destruct (Ropsten.ether_overflows web wei) eqn:Ho]
        |]]]
    |]
   |]
  |apply Z.eqb_neq in Hst];
  cbn [fst snd].

(** X18.  [ropsten_faucet_donate] writes exactly one line to the log when
    it returns and none when it raises; it raises KeyError('paydate') exactly
    when the faucet answers 200 with a JSON object that has no 'paydate'. *)
Theorem ropsten_log_and_missing_paydate web addr :
  let response := Ropsten.get web (Ropsten.request web addr) in
  let r := Ropsten.ropsten_faucet_donate web addr in
  (forall b, fst r = inr b -> List.length (snd r) = 1)
  /\ (forall e, fst r = inl e -> snd r = [])
  /\ (fst r = inl (Ropsten.KeyError "paydate") <->
      Ropsten.status_code response = 200%Z
      /\ exists d, Ropsten.json response = Some d /\ d "paydate" = None).
Proof.
  cbv zeta.
  assert (Hfmt : forall m, Ropsten.format web m <> inl (Ropsten.KeyError "paydate")).
  { intros m; unfold Ropsten.format.
    destruct m as [|[|]| | | u | |]; try discriminate.
    destruct (Ropsten.ascii_text u); discriminate. }
  assert (Htime : forall p, Ropsten.fromtimestamp web p
                            <> Some (Ropsten.KeyError "paydate")).
  { intros p; unfold Ropsten.fromtimestamp.
    destruct (Ropsten.is_number p); [|discriminate].
    destruct (Ropsten.fromtimestamp_raises web p) as [[| |]|]; discriminate. }
  assert (Hint : forall a, Ropsten.int web a <> inl (Ropsten.KeyError "paydate")).
  { intros a; unfold Ropsten.int.
    destruct a as [| | |[| |]| u | |]; try discriminate.
    destruct (Ropsten.int_of_text web u); discriminate. }
  ropsten_cases web addr;
    (split; [intros b Hb; try discriminate; reflexivity|]);
    (split; [intros e' He; try discriminate; reflexivity|]);
    (split;
     [intros Hk; try discriminate;
      try (destruct (Ropsten.json_other _); discriminate);
      try (exfalso; inversion Hk; subst;
           first [now apply (Hfmt m) | now apply (Htime p) | now apply (Hint a)]);
      try (split; [exact Hst|]; exists d; split; [reflexivity|assumption])
     |intros (Hst' & d' & Hd & Hp'); try contradiction;
      try (inversion Hd; subst d'; congruence); try discriminate; try reflexivity]).
Qed.

(** ** The version pattern and [StrictVersion] *)

Lemma string_app_assoc (a b c : string) : (a ++ b) ++ c = a ++ (b ++ c).
Proof. induction a; simpl; congruence. Qed.

Lemma strip_prefix_sound p : forall s r, Text.strip_prefix p s = Some r -> s = p ++ r.
Proof.
  induction p as [|a p IH]; intros s r H; cbn in H.
  - inversion H; reflexivity.
  - destruct s as [|b s]; [discriminate|].
    destruct (Ascii.eqb_spec a b) as [->|]; [|discriminate].
    cbn; f_equal; now apply IH.
Qed.

Lemma group1_prefix s g :
  VersionPattern.group1 s = Some g ->
  exists post, s = g ++ post /\ Text.stops_run post.
Proof.
  unfold VersionPattern.group1; intros H.
  destruct (Text.digits1 s) as [[a r]|] eqn:Ha; [|discriminate].
  destruct r as [|x r1]; [discriminate|].
  destruct (Ascii.eqb_spec x ".") as [->|Hx];
    [|destruct x as [[] [] [] [] [] [] [] []]; try discriminate; now elim Hx].
  destruct (Text.digits1 r1) as [[b r]|] eqn:Hb; [|discriminate].
  destruct r as [|y r2]; [discriminate|].
  destruct (Ascii.eqb_spec y ".") as [->|Hy];
    [|destruct y as [[] [] [] [] [] [] [] []]; try discriminate; now elim Hy].
  destruct (Text.digits1 r2) as [[c r]|] eqn:Hc; [|discriminate].
  inversion H; subst; clear H.
  apply TextFacts.digits1_sound in Ha as (-> & _).
  apply TextFacts.digits1_sound in Hb as (-> & _).
  apply TextFacts.digits1_sound in Hc as (-> & _ & _ & Hstop).
  exists r; split; [|exact Hstop].
  rewrite !string_app_assoc; cbn; rewrite !string_app_assoc; reflexivity.
Qed.

(** X19.  The version [__init__] checks is text of the version output: the
    group found by the pattern stands in the output right after
    "Version: ", it is three non-empty runs of digits joined by dots, and it
    is not followed by a further digit. *)
Theorem version_search_sound output g :
  VersionPattern.search output = Some g ->
  (exists pre post,
      output = pre ++ "Version: " ++ g ++ post /\ Text.stops_run post)
  /\ (exists a b c,
         g = a ++ "." ++ b ++ "." ++ c
         /\ Text.all_digits a = true /\ a <> ""
         /\ Text.all_digits b = true /\ b <> ""
         /\ Text.all_digits c = true /\ c <> "").
Proof.
  intros H; split.
  - revert H; induction output as [|ch s IH]; cbn [VersionPattern.search]; intros H.
    + unfold VersionPattern.match_here in H; cbn in H; discriminate.
    + destruct (VersionPattern.match_here (String ch s)) as [g'|] eqn:Hm.
      * inversion H; subst g'.
        unfold VersionPattern.match_here in Hm.
        destruct (Text.strip_prefix "Version: " (String ch s)) as [r|] eqn:Hp;
          [|discriminate].
        apply strip_prefix_sound in Hp.
        apply group1_prefix in Hm as (post & -> & Hstop).
        exists "", post; split; [exact Hp | exact Hstop].
      * destruct (IH H) as (pre & post & -> & Hstop).
        exists (String ch pre), post; split; [reflexivity | exact Hstop].
  - apply VersionFacts.search_shape in H as (s' & H).
    now apply VersionFacts.group1_shape in H.
Qed.

Lemma version_search_sound_witness :
  exists pre post,
    Sample.banner "1.5.0" = pre ++ "Version: " ++ "1.5.0" ++ post
    /\ Text.stops_run post.
Proof.
  exact (proj1 (version_search_sound (Sample.banner "1.5.0") "1.5.0" eq_refl)).
Defined.

Lemma int_of_digits_from s : Text.int_of_digits s = int_from 0 s.
Proof. reflexivity. Qed.

Lemma int_from_pos d :
  forall acc, int_from (Npos acc) (NilEmpty.string_of_uint d) = Npos (Pos.of_uint_acc d acc).
Proof.
  induction d; intros acc; cbn [NilEmpty.string_of_uint int_from Pos.of_uint_acc];
    try reflexivity;
    match goal with
    | |- int_from ?x _ = Npos (Pos.of_uint_acc _ ?y) =>
        replace x with (Npos y) by (vm_compute Text.digit_value; lia)
    end; apply IHd.
Qed.

Lemma int_from_zero d : int_from 0 (NilEmpty.string_of_uint d) = Pos.of_uint d.
Proof.
  induction d; cbn [NilEmpty.string_of_uint int_from Pos.of_uint]; try reflexivity;
    try exact IHd;
    match goal with
    | |- int_from ?x _ = Npos (Pos.of_uint_acc _ ?y) =>
        replace x with (Npos y) by (vm_compute; reflexivity)
    end; apply int_from_pos.
Qed.

Lemma all_digits_string_of_uint d : Text.all_digits (NilEmpty.string_of_uint d) = true.
Proof. induction d; cbn; auto. Qed.

Lemma str_N_digits n :
  Text.all_digits (Text.str_N n) = true
  /\ Text.str_N n <> ""
  /\ Text.int_of_digits (Text.str_N n) = n.
Proof.
  unfold Text.str_N.
  assert (Hnn : N.to_uint n <> Decimal.Nil).
  { destruct n; cbn; [discriminate | apply DecimalPos.Unsigned.to_uint_nonnil]. }
  assert (Hs : NilZero.string_of_uint (N.to_uint n) = NilEmpty.string_of_uint (N.to_uint n))
    by (destruct (N.to_uint n); [contradiction | reflexivity ..]).
  rewrite Hs; split; [apply all_digits_string_of_uint|]; split.
  - destruct (N.to_uint n); [contradiction | discriminate ..].
  - rewrite int_of_digits_from, int_from_zero.
    exact (DecimalN.Unsigned.of_to n).
Qed.

Lemma parse_two a b :
  Text.all_digits a = true -> a <> "" ->
  Text.all_digits b = true -> b <> "" ->
  Version.parse (a ++ "." ++ b) =
    Some {| Version.version := (Text.int_of_digits a, Text.int_of_digits b, 0%N);
            Version.prerelease := None |}.
Proof.
  intros Ha Hna Hb Hnb; unfold Version.parse.
  rewrite (TextFacts.digits1_app a) by (auto; reflexivity).
  simpl append; cbv beta iota.
  rewrite <- (TextFacts.app_empty_r b) at 1.
  rewrite (TextFacts.digits1_app b "") by (auto; exact I).
  reflexivity.
Qed.

(** X20.  Printing a release version and reading it back gives the same
    version, although a patch level 0 is not printed ("1.6" for 1.6.0): the
    version named in the log line and in the "Incompatible ..." error of
    [__init__] identifies the version that was compared. *)
Theorem version_str_parse_round_trip (v : N * N * N) :
  Version.parse (Version.str {| Version.version := v; Version.prerelease := None |})
  = Some {| Version.version := v; Version.prerelease := None |}
  /\ (forall host prog ver,
         reported_version host prog = Some ver ->
         Version.parse (Version.str ver) = Some ver).
Proof.
  assert (Hrt : forall v : N * N * N,
             Version.parse (Version.str {| Version.version := v;
                                           Version.prerelease := None |})
             = Some {| Version.version := v; Version.prerelease := None |}).
  { clear v; intros [[a b] c]; unfold Version.str; cbn [Version.version Version.prerelease].
    destruct (str_N_digits a) as (Ha & Hna & Hia).
    destruct (str_N_digits b) as (Hb & Hnb & Hib).
    destruct (str_N_digits c) as (Hc & Hnc & Hic).
    destruct (N.eqb_spec c 0) as [->|Hc0]; cbn [Text.join].
    - rewrite parse_two by assumption; rewrite Hia, Hib; reflexivity.
    - rewrite VersionFacts.parse_three by assumption; rewrite Hia, Hib, Hic; reflexivity. }
  split; [apply Hrt|].
  intros host prog ver Hrep.
  destruct (reported_version_plain _ _ _ Hrep) as (_ & _ & _ & Hpre).
  destruct ver as [v' pre]; cbn in Hpre; subst pre; apply Hrt.
Qed.

(** X21.  [Faucet.deploy_contract] sends a contract creation from the
    faucet (no recipient, no value, gas price 0, gas 3141592, the init code
    as data, signed with the faucet key) and returns what [creates] gives
    for that very transaction.  It asks for the nonce under the faucet
    address without "0x", a string other than the one [gimme_money] uses, so
    a node that tells the two apart gives the two operations different
    nonces. *)
Theorem deploy_contract_transaction host creates normalize_address init_code addr value :
  (forall ethnode,
      let r := Faucet.deploy_contract host creates ethnode init_code in
      fst r = {| Faucet.nonce :=
                   Faucet.get_transaction_count ethnode
                     (Text.encode_hex (privtoaddr host (Text.pad32 "Golem Faucet")));
                 Faucet.gasprice := 0; Faucet.startgas := 3141592;
                 Faucet.to := ""; Faucet.value := 0; Faucet.data := init_code;
                 Faucet.signed_with := Some (Text.pad32 "Golem Faucet") |}
      /\ snd r = creates (fst r))
  /\ exists ethnode,
       Faucet.nonce (fst (Faucet.deploy_contract host creates ethnode init_code))
       <> Faucet.nonce (fst (Faucet.gimme_money host normalize_address ethnode addr value)).
Proof.
  split; [intros ethnode; split; reflexivity|].
  exists {| Faucet.get_transaction_count :=
              fun s => if s =? "0x" ++ Text.encode_hex (ADDR host) then 1%Z else 0%Z;
            Faucet.send := fun _ => "" |}.
  unfold Faucet.deploy_contract, Faucet.gimme_money, Faucet.sign.
  cbn [fst Faucet.nonce Faucet.get_transaction_count].
  rewrite String.eqb_refl.
  destruct (String.eqb_spec (Text.encode_hex (ADDR host))
              ("0x" ++ Text.encode_hex (ADDR host))) as [E|_]; [|discriminate].
  apply (f_equal String.length) in E; cbn in E; lia.
Qed.

(** X22.  An object returned by [NodeProcess.__init__] is at rest: it holds
    the located binary and the given directory, no process, no ports and no
    public key; construction has requested no port, and a [stop] on it does
    nothing. *)
Theorem constructed_object_is_at_rest host nodes datadir w o :
  let r := __init__ host nodes datadir w in
  fst r = Ret o ->
  find_program host "geth" = Some (__prog o)
  /\ o = {| port := None; __prog := __prog o; datadir := datadir;
            __ps := None; rpcport := None; pubkey := None |}
  /\ is_running o = false
  /\ allocated (snd r) = allocated w
  /\ spawned (snd r) = spawned w
  /\ stop host (o, snd r) = (Ret tt, (o, snd r)).
Proof.
  cbv zeta; intros Hret.
  destruct (init_ret_located _ _ _ _ _ Hret)
    as (prog & ver & Hfind & Hne & Hrep & Hoor & Hfs & Hz & Ho).
  destruct (init_outcome_fs host nodes datadir prog ver w Hfind Hne Hrep Hoor Hfs)
    as (_ & Ha & _).
  destruct (init_never_launches host nodes datadir w) as (Hsp & _).
  subst o; cbn [__prog].
  split; [exact Hfind|]; split; [reflexivity|]; split; [reflexivity|].
  split; [exact Ha|]; split; [exact Hsp|].
  apply stop_not_running; reflexivity.
Qed.

Lemma constructed_object_is_at_rest_witness :
  let host := Sample.host (Sample.banner "1.5.0") 0 0 in
  is_running Sample.node0 = false
  /\ allocated (snd (__init__ host [] "/tmp/eth" Sample.world0)) = 0.
Proof.
  intros host.
  pose proof (constructed_object_is_at_rest host [] "/tmp/eth" Sample.world0 Sample.node0
                eq_refl) as (_ & _ & Hrun & Ha & _).
  split; [exact Hrun | exact Ha].
Defined.

(** X16.  [ropsten_faucet_donate] returns [True] exactly when the faucet
    answers 200 with a JSON object whose 'paydate' does not compare equal
    to 0 and is accepted by [datetime.fromtimestamp] (so it is a number, in
    the range of the platform), and whose 'amount' is accepted by [int] and
    does not overflow the division by [denoms.ether]; it then logs that
    amount and that pay date.  A pay date out of range, or an amount too
    large, makes the function raise instead. *)
Theorem ropsten_donation_succeeds_iff web addr :
  let response := Ropsten.get web (Ropsten.request web addr) in
  let r := Ropsten.ropsten_faucet_donate web addr in
  let paid d paydate wei :=
    Ropsten.json response = Some d
    /\ d "paydate" = Some paydate /\ Ropsten.is_zero paydate = false
    /\ Ropsten.fromtimestamp web paydate = None
    /\ (exists amount, d "amount" = Some amount /\ Ropsten.int web amount = inr wei)
    /\ Ropsten.ether_overflows web wei = false in
  (fst r = inr true <->
   Ropsten.status_code response = 200%Z /\ exists d paydate wei, paid d paydate wei)
  /\ (forall d paydate wei,
        Ropsten.status_code response = 200%Z -> paid d paydate wei ->
        r = (inr true, [Ropsten.Log_paid wei paydate])
        /\ Ropsten.is_number paydate = true)
  /\ (forall d paydate f,
        Ropsten.status_code response = 200%Z ->
        Ropsten.json response = Some d ->
        d "paydate" = Some paydate -> Ropsten.is_zero paydate = false ->
        Ropsten.fromtimestamp_raises web paydate = Some f ->
        exists e, r = (inl e, [])).
Proof.
  cbv zeta.
  assert (Hdirect : forall d paydate wei,
             Ropsten.status_code (Ropsten.get web (Ropsten.request web addr)) = 200%Z ->
             Ropsten.json (Ropsten.get web (Ropsten.request web addr)) = Some d
             /\ d "paydate" = Some paydate /\ Ropsten.is_zero paydate = false
             /\ Ropsten.fromtimestamp web paydate = None
             /\ (exists amount, d "amount" = Some amount
                                /\ Ropsten.int web amount = inr wei)
             /\ Ropsten.ether_overflows web wei = false ->
             Ropsten.ropsten_faucet_donate web addr
             = (inr true, [Ropsten.Log_paid wei paydate])).
  { intros d paydate wei Hst (Hj & Hp & Hz & Ht & (a & Ha & Hi) & Ho).
    unfold Ropsten.ropsten_faucet_donate.
    rewrite Hst, Hj, Hp, Hz, Ht, Ha, Hi, Ho; reflexivity. }
  split; [|split].
  - split.
    + ropsten_cases web addr; intros Hret; try discriminate.
      split; [exact Hst|]; exists d, p, wei.
      do 4 (split; [first [reflexivity|assumption]|]).
      split; [exists a; split; assumption|assumption].
    + intros (Hst & d & paydate & wei & Hpaid).
      rewrite (Hdirect d paydate wei Hst Hpaid); reflexivity.
  - intros d paydate wei Hst Hpaid; split; [exact (Hdirect d paydate wei Hst Hpaid)|].
    destruct Hpaid as (_ & _ & _ & Ht & _).
    unfold Ropsten.fromtimestamp in Ht.
    destruct (Ropsten.is_number paydate); [reflexivity|discriminate].
  - intros d paydate f Hst Hj Hp Hz Hf.
    unfold Ropsten.ropsten_faucet_donate.
    rewrite Hst, Hj, Hp, Hz; cbn [Z.eqb Pos.eqb negb].
    unfold Ropsten.fromtimestamp; rewrite Hf.
    destruct (Ropsten.is_number paydate); eexists; reflexivity.
Qed.

Lemma ropsten_donation_succeeds_iff_witness :
  let paydate := Ropsten.JInt 10000000000000 in
  let web := Ropsten.paying paydate (Ropsten.JInt 1000000000000000000) in
  exists e, Ropsten.ropsten_faucet_donate web "addr" = (inl e, []).
Proof.
  intros paydate web.
  refine (proj2 (proj2 (ropsten_donation_succeeds_iff web "addr"))
            (fun k => if k =? "paydate" then Some paydate
                      else if k =? "amount" then Some (Ropsten.JInt 1000000000000000000)
                      else if k =? "message" then Some (Ropsten.JStr [79; 75]%N)
                      else None)
            paydate Ropsten.Value_error _ _ _ _ _); reflexivity.
Defined.

(** X17.  [ropsten_faucet_donate] returns [False] in two cases only: the
    status is not 200, and then the body is not even read and the code is
    logged as an error; or the faucet answers with a 'paydate' that compares
    equal to 0 (the integer 0, a float zero, or [False]) and with a
    'message' that [str.format] can render, which is logged as a warning.  A
    message in unicode beyond ASCII makes the function raise instead. *)
Theorem ropsten_donation_refused_iff web addr :
  let response := Ropsten.get web (Ropsten.request web addr) in
  let r := Ropsten.ropsten_faucet_donate web addr in
  let refused d m text :=
    Ropsten.json response = Some d
    /\ (exists paydate, d "paydate" = Some paydate /\ Ropsten.is_zero paydate = true)
    /\ d "message" = Some m /\ Ropsten.format web m = inr text in
  (fst r = inr false <->
   Ropsten.status_code response <> 200%Z \/ exists d m text, refused d m text)
  /\ (Ropsten.status_code response <> 200%Z ->
      r = (inr false,
           [Ropsten.Log_error ("Ropsten Faucet error code "
                               ++ Text.str_Z (Ropsten.status_code response))]))
  /\ (forall d m text,
        Ropsten.status_code response = 200%Z -> refused d m text ->
        r = (inr false, [Ropsten.Log_warning ("Ropsten Faucet warning " ++ text)]))
  /\ (forall paydate,
        Ropsten.is_zero paydate = true <->
        paydate = Ropsten.JInt 0 \/ paydate = Ropsten.JBool false
        \/ exists negative e, paydate = Ropsten.JFloat (Ropsten.Finite negative 0 e))
  /\ (forall m, (exists e, Ropsten.format web m = inl e) <->
                exists u, m = Ropsten.JStr u /\ Ropsten.ascii_text u = None).
Proof.
  cbv zeta.
  assert (Hnot200 : Ropsten.status_code (Ropsten.get web (Ropsten.request web addr))
                    <> 200%Z ->
                    Ropsten.ropsten_faucet_donate web addr
                    = (inr false,
                       [Ropsten.Log_error
                          ("Ropsten Faucet error code "
                           ++ Text.str_Z (Ropsten.status_code
                                            (Ropsten.get web (Ropsten.request web addr))))])).
  { intros Hst; unfold Ropsten.ropsten_faucet_donate.
    apply Z.eqb_neq in Hst; rewrite Hst; reflexivity. }
  assert (Hdirect : forall d m text,
             Ropsten.status_code (Ropsten.get web (Ropsten.request web addr)) = 200%Z ->
             Ropsten.json (Ropsten.get web (Ropsten.request web addr)) = Some d
             /\ (exists paydate, d "paydate" = Some paydate
                                 /\ Ropsten.is_zero paydate = true)
             /\ d "message" = Some m /\ Ropsten.format web m = inr text ->
             Ropsten.ropsten_faucet_donate web addr
             = (inr false, [Ropsten.Log_warning ("Ropsten Faucet warning " ++ text)])).
  { intros d m text Hst (Hj & (p & Hp & Hz) & Hm & Hf).
    unfold Ropsten.ropsten_faucet_donate.
    rewrite Hst, Hj, Hp, Hz, Hm, Hf; reflexivity. }
  split; [|split; [exact Hnot200|split; [exact Hdirect|split]]].
  - split.
    + ropsten_cases web addr; intros Hret; try discriminate;
        [right; exists d, m, text;
         split; [reflexivity|]; split; [exists p; split; assumption|]; split; assumption
        |left; exact Hst].
    + intros [H|(d & m & text & Href)].
      * rewrite (Hnot200 H); reflexivity.
      * destruct (Z.eq_dec (Ropsten.status_code (Ropsten.get web (Ropsten.request web addr)))
                    200) as [Hst|Hst].
        -- rewrite (Hdirect d m text Hst Href); reflexivity.
        -- rewrite (Hnot200 Hst); reflexivity.
  - intros paydate; split.
    + destruct paydate as [|[|]|z|[neg mant e|neg|]| | |]; cbn [Ropsten.is_zero negb];
        try discriminate.
      * intros _; right; left; reflexivity.
      * intros Hz; apply Z.eqb_eq in Hz; subst z; left; reflexivity.
      * intros Hz; apply N.eqb_eq in Hz; subst mant; right; right; eauto.
    + intros [->|[->|(neg & e & ->)]]; reflexivity.
  - intros m; split.
    + intros (e & He); unfold Ropsten.format in He.
      destruct m as [|[|]| | | u | |]; try discriminate.
      exists u; split; [reflexivity|].
      destruct (Ropsten.ascii_text u); [discriminate|reflexivity].
    + intros (u & -> & Hu); unfold Ropsten.format; rewrite Hu; eauto.
Qed.

Lemma ropsten_donation_refused_iff_witness :
  let web := Ropsten.paying (Ropsten.JBool false) (Ropsten.JInt 1) in
  Ropsten.ropsten_faucet_donate web "addr"
  = (inr false, [Ropsten.Log_warning "Ropsten Faucet warning OK"]).
Proof.
  intros web.
  refine (proj1 (proj2 (proj2 (ropsten_donation_refused_iff web "addr")))
            (fun k => if k =? "paydate" then Some (Ropsten.JBool false)
                      else if k =? "amount" then Some (Ropsten.JInt 1)
                      else if k =? "message" then Some (Ropsten.JStr [79; 75]%N)
                      else None)
            (Ropsten.JStr [79; 75]%N) "OK" eq_refl _).
  split; [reflexivity|]; split; [eexists; split; reflexivity|]; split; reflexivity.
Defined.
